(** * The execution lifecycle client of [bot.py]

    A shallow embedding of the part of [src/bot.py] that submits a job to
    the backend, polls its status and extracts the text of its result:
    [_json_compact], [_get_status], [_get_result],
    [_extract_final_text_from_payload] and [handle_default_route], with
    the retries of the session of [build_session].

    Conventions of the model:
    - a Python [str] is the list of its Unicode code points ([len] is
      [length], [s[:n]] is [firstn n s]);
    - a parsed JSON document is a tree of type [json]; a Python [dict] is
      the list of its items in insertion order;
    - the network, the clock and [time.sleep] are an environment that the
      program queries; what the program did is kept in a trace;
    - a raised exception is a value of type [exn]; [try ... except] is
      [catch]. *)

From Stdlib Require Import String Ascii List ZArith NArith Lia Bool.
Import ListNotations.

Set Warnings "-register-all,-notation-for-abbreviation".

(** ** Python strings *)

Module PyStr.

Definition str := list N.

(** An ASCII literal of the source, as code points. *)
Fixpoint lit (s : string) : str :=
  match s with
  | EmptyString => []
  | String c rest => N_of_ascii c :: lit rest
  end.

Definition eqb (a b : str) : bool :=
  if list_eq_dec N.eq_dec a b then true else false.

(** [bool(s)]: a string is true when it is not empty. *)
Definition nonempty (s : str) : bool :=
  match s with [] => false | _ :: _ => true end.

(** [str.isspace] on one code point: the white space of Unicode as CPython
    has it ([Py_UNICODE_ISSPACE]). *)
Definition isspace (c : N) : bool :=
  ((9 <=? c) && (c <=? 13) || (28 <=? c) && (c <=? 32)
   || (c =? 133) || (c =? 160) || (c =? 5760)
   || (8192 <=? c) && (c <=? 8202)
   || (c =? 8232) || (c =? 8233) || (c =? 8239) || (c =? 8287)
   || (c =? 12288))%N.

Fixpoint lstrip (s : str) : str :=
  match s with
  | [] => []
  | c :: rest => if isspace c then lstrip rest else s
  end.

Definition rstrip (s : str) : str := rev (lstrip (rev s)).

(** [s.strip()] *)
Definition strip (s : str) : str := rstrip (lstrip s).

(** [sep.join(parts)] *)
Fixpoint join (sep : str) (parts : list str) : str :=
  match parts with
  | [] => []
  | [p] => p
  | p :: rest => p ++ sep ++ join sep rest
  end.

(** [s.startswith(needle)] *)
Fixpoint startswith (s needle : str) {struct needle} : bool :=
  match needle with
  | [] => true
  | a :: needle' =>
      match s with
      | [] => false
      | b :: s' => (a =? b)%N && startswith s' needle'
      end
  end.

(** [needle in s] *)
Fixpoint contains (s needle : str) : bool :=
  startswith s needle ||
  match s with
  | [] => false
  | _ :: s' => contains s' needle
  end.

(** [str(n)] for an [int]. *)
Fixpoint of_uint (u : Decimal.uint) : str :=
  match u with
  | Decimal.Nil => []
  | Decimal.D0 u => 48%N :: of_uint u
  | Decimal.D1 u => 49%N :: of_uint u
  | Decimal.D2 u => 50%N :: of_uint u
  | Decimal.D3 u => 51%N :: of_uint u
  | Decimal.D4 u => 52%N :: of_uint u
  | Decimal.D5 u => 53%N :: of_uint u
  | Decimal.D6 u => 54%N :: of_uint u
  | Decimal.D7 u => 55%N :: of_uint u
  | Decimal.D8 u => 56%N :: of_uint u
  | Decimal.D9 u => 57%N :: of_uint u
  end.

Definition of_int (z : Z) : str :=
  match z with
  | Z0 => [48%N]
  | Zpos p => of_uint (Pos.to_uint p)
  | Zneg p => 45%N :: of_uint (Pos.to_uint p)
  end.

(** One lower-case hexadecimal digit, for the escapes of [json.dumps]. *)
Definition hexdigit (n : N) : N :=
  (if n <? 10 then 48 + n else 87 + n)%N.

End PyStr.

Import PyStr.

Arguments lit s%_string.
Open Scope Z_scope.

(** ** JSON documents *)

(** A Python [float] is used by this program through its truth value and
    through the text [json.dumps] writes for it (its [repr], or [NaN],
    [Infinity], [-Infinity]); no arithmetic is done on the numbers of a
    payload. *)
Record pyfloat := PyFloat {
  float_is_zero : bool;
  float_text : str
}.

Inductive json :=
| JNull
| JBool (b : bool)
| JInt (z : Z)
| JFloat (f : pyfloat)
| JStr (s : str)
| JArr (items : list json)
| JObj (fields : list (str * json)).

Definition dict := list (str * json).

(** [d.get(k)], which is [None] when the key is absent. *)
Fixpoint dict_get (d : dict) (k : str) : json :=
  match d with
  | [] => JNull
  | (k', v) :: rest => if eqb k' k then v else dict_get rest k
  end.


(** [bool(v)] *)
Definition truthy (v : json) : bool :=
  match v with
  | JNull => false
  | JBool b => b
  | JInt z => negb (z =? 0)
  | JFloat f => negb (float_is_zero f)
  | JStr s => nonempty s
  | JArr items => match items with [] => false | _ => true end
  | JObj fields => match fields with [] => false | _ => true end
  end.

(** [a or b] *)
Definition py_or (a b : json) : json := if truthy a then a else b.

(** [type(v).__name__] *)
Definition type_name (v : json) : str :=
  match v with
  | JNull => lit "NoneType"
  | JBool _ => lit "bool"
  | JInt _ => lit "int"
  | JFloat _ => lit "float"
  | JStr _ => lit "str"
  | JArr _ => lit "list"
  | JObj _ => lit "dict"
  end.

(** *** [json.dumps(obj, ensure_ascii=False, indent=2)] *)

Definition escape_char (c : N) : str :=
  (if c =? 34 then lit "\" ++ [34]
   else if c =? 92 then lit "\\"
   else if c =? 10 then lit "\n"
   else if c =? 13 then lit "\r"
   else if c =? 9 then lit "\t"
   else if c =? 8 then lit "\b"
   else if c =? 12 then lit "\f"
   else if c <? 32 then lit "\u00" ++ [hexdigit (c / 16); hexdigit (c mod 16)]
   else [c])%N.

Definition encode_str (s : str) : str :=
  [34%N] ++ flat_map escape_char s ++ [34%N].

Definition newline_indent (level : nat) : str :=
  10%N :: repeat 32%N (2 * level).

Fixpoint dumps_at (level : nat) (v : json) {struct v} : str :=
  match v with
  | JNull => lit "null"
  | JBool true => lit "true"
  | JBool false => lit "false"
  | JInt z => of_int z
  | JFloat f => float_text f
  | JStr s => encode_str s
  | JArr [] => lit "[]"
  | JArr items =>
      lit "[" ++ newline_indent (S level)
      ++ join (lit "," ++ newline_indent (S level))
              (map (dumps_at (S level)) items)
      ++ newline_indent level ++ lit "]"
  | JObj [] => lit "{}"
  | JObj fields =>
      lit "{" ++ newline_indent (S level)
      ++ join (lit "," ++ newline_indent (S level))
              (map (fun kv => let '(k, x) := kv in
                              encode_str k ++ lit ": " ++ dumps_at (S level) x)
                   fields)
      ++ newline_indent level ++ lit "}"
  end.

Definition json_dumps (v : json) : str := dumps_at 0 v.

(** The marker appended to a cut text: a space and U+2026. *)
Definition ellipsis : str := [32%N; 8230%N].

(** [_json_compact(obj, limit=2000)]. [json.dumps] accepts every value a
    response body parses to, so the [except] branch of the source, which
    is for objects that are not JSON, is never taken on a [json]. *)
Definition _json_compact (obj : json) (limit : nat) : str :=
  let s := json_dumps obj in
  if (length s <=? limit)%nat then s else firstn limit s ++ ellipsis.

(** The default value of the parameter [limit]. *)
Definition default_limit : nat := 2000.

(** ** Exceptions *)

(** The three classes the handlers of [handle_default_route] tell apart,
    each with the text [str(e)] of the exception. [KeyboardInterrupt] and
    the like, which are not an [Exception], are not part of the model. *)
Inductive exn :=
| Timeout (detail : str)            (* requests.exceptions.Timeout *)
| RequestException (detail : str)   (* any other RequestException *)
| OtherException (detail : str).    (* any other Exception *)

Inductive result (A : Type) :=
| Ok (a : A)
| Raise (e : exn).
Arguments Ok {A} a.
Arguments Raise {A} e.

(** [AttributeError] for a method the value does not have. *)
Definition attribute_error (v : json) (attr : str) : exn :=
  OtherException
    (lit "'" ++ type_name v ++ lit "' object has no attribute '"
     ++ attr ++ lit "'").

(** [v.get(k)] on a value that may or may not be a [dict]. *)
Definition py_get (v : json) (k : str) : result json :=
  match v with
  | JObj d => Ok (dict_get d k)
  | _ => Raise (attribute_error v (lit "get"))
  end.

(** ** The result extractor *)

(** The candidate fields, in the order the loop tries them. *)
Definition candidate_keys : list str :=
  [lit "result"; lit "final"; lit "text"; lit "message"; lit "output"].

(** The [for k in (...)] loop over a [dict] [fr]: the first candidate
    whose value is a string that is not empty once stripped. *)
Fixpoint probe (fr : dict) (keys : list str) : option str :=
  match keys with
  | [] => None
  | k :: rest =>
      match dict_get fr k with
      | JStr v => if nonempty (strip v) then Some (strip v) else probe fr rest
      | _ => probe fr rest
      end
  end.

Definition _extract_final_text_from_payload (payload : json)
  : result (option str) :=
  match py_get payload (lit "final_result") with
  | Raise e => Raise e
  | Ok fr =>
      match fr with
      | JNull => Ok None
      | JStr fr =>
          let s := strip fr in
          Ok (if nonempty s then Some s else None)
      | JObj fr =>
          match probe fr candidate_keys with
          | Some v => Ok (Some v)
          | None => Ok (Some (_json_compact (JObj fr) default_limit))
          end
      | _ => Ok None
      end
  end.

(** ** The environment: backend, clock and trace *)

(** A [requests.Response]: [parsed] is what [r.json()] makes of the
    text. It returns the document, or raises the [JSONDecodeError] of
    [requests] for a text that is not JSON, or lets through what
    [json.loads] raises otherwise: a [ValueError] (an integer of more
    than 4300 digits) or an exception that is not one (a
    [RecursionError]). Parsing is the library's: the model takes its
    outcome from the response and does not relate it to [text]. *)
Inductive body :=
| Json (j : json)
| NotJson (error : str)
| JsonRaises (value_error : bool) (detail : str).

Record Response := {
  status_code : Z;
  reason : str;
  url : str;
  text : str;
  parsed : body
}.

Inductive reply :=
| Answers (r : Response)
| Fails (e : exn).

(** One request as the transport (with its retries) completes it: how
    long it lasted on the monotonic clock and what came out of it. *)
Record call := {
  took : Z;
  reply_of : reply
}.

(** Times are integers, in milliseconds of the monotonic clock. *)
Record Backend := {
  post : json -> call;                 (* session.post(api_url, json=body) *)
  get_status : nat -> json -> call;    (* the n-th GET .../{id}/status *)
  get_result : json -> call;           (* GET .../executions/{id} *)
  sleep : nat -> Z -> Z                (* how long the n-th time.sleep(d) lasts *)
}.

(** The two settings of [RUNTIME] the client reads. *)
Record Runtime := {
  poll_interval : Z;
  max_wait : Z
}.

Definition RUNTIME : Runtime :=
  {| poll_interval := 1000; max_wait := 120000 |}.

Inductive log_record :=
| LogStarted (execution_id : json)
| LogStatus (execution_id : json) (status : str)
| LogException (e : exn).

Inductive event :=
| EvPost (request : json) (c : call)
| EvStatus (execution_id : json) (c : call)
| EvResult (execution_id : json) (c : call)
| EvSleep (requested lasted : Z)
| EvLog (l : log_record).

(** The state a run threads: the clock and what was done so far, the
    latest event first. *)
Record World := {
  clock : Z;
  trace : list event
}.

Definition is_status (e : event) : bool :=
  match e with EvStatus _ _ => true | _ => false end.

Definition is_result (e : event) : bool :=
  match e with EvResult _ _ => true | _ => false end.

Definition is_sleep (e : event) : bool :=
  match e with EvSleep _ _ => true | _ => false end.

Definition count (p : event -> bool) (w : World) : nat :=
  length (filter p (trace w)).

(** Number of status requests, result requests and sleeps so far. *)
Definition polls : World -> nat := count is_status.
Definition fetches : World -> nat := count is_result.
Definition sleeps : World -> nat := count is_sleep.

(** *** The monad of the client: state, exceptions and fuel *)

(** [None] is a run cut short by the bound on the iterations of the poll
    loop; it is not an exception and no handler sees it. *)
Definition M (A : Type) : Type := World -> option (result A) * World.

Definition ret {A} (a : A) : M A := fun w => (Some (Ok a), w).

Definition raise {A} (e : exn) : M A := fun w => (Some (Raise e), w).

Definition out_of_fuel {A} : M A := fun w => (None, w).

Definition bind {A B} (m : M A) (k : A -> M B) : M B :=
  fun w =>
    match m w with
    | (Some (Ok a), w') => k a w'
    | (Some (Raise e), w') => (Some (Raise e), w')
    | (None, w') => (None, w')
    end.

(** [try: m except Exception as e: h e] *)
Definition catch {A} (m : M A) (h : exn -> M A) : M A :=
  fun w =>
    match m w with
    | (Some (Raise e), w') => h e w'
    | other => other
    end.

Definition lift {A} (r : result A) : M A := fun w => (Some r, w).

Declare Scope client_scope.
Delimit Scope client_scope with client.
Notation "x <- m ;; k" := (bind m (fun x => k))
  (at level 100, m at next level, right associativity) : client_scope.
Notation "m ;; k" := (bind m (fun _ => k))
  (at level 100, right associativity) : client_scope.
Open Scope client_scope.

Definition emit (e : event) : M unit :=
  fun w => (Some (Ok tt), {| clock := clock w; trace := e :: trace w |}).

Definition advance (d : Z) : M unit :=
  fun w => (Some (Ok tt), {| clock := clock w + d; trace := trace w |}).

(** [time.monotonic()] *)
Definition monotonic : M Z := fun w => (Some (Ok (clock w)), w).

(** [logger.info], [logger.exception] *)
Definition log (l : log_record) : M unit := emit (EvLog l).

(** A request runs for its duration and then answers or raises. *)
Definition perform (c : call) : M Response :=
  advance (took c) ;;
  match reply_of c with
  | Answers r => ret r
  | Fails e => raise e
  end.

(** ** The texts of [UX] the client uses *)

Module UX.

Definition warning_sign : str := [9888%N; 65039%N].   (* U+26A0 U+FE0F *)
Definition cross_mark : str := [10060%N].              (* U+274C *)
Definition check_mark : str := [9989%N].               (* U+2705 *)
Definition nl : str := [10%N].

Definition timeout : str :=
  warning_sign ++ lit " Backend timed out. Try again shortly.".

Definition network_err : str :=
  cross_mark ++ lit " Network error. Backend unreachable.".

(** [UX["backend_err"].format(code=code, body=body)] *)
Definition backend_err (code : Z) (body : str) : str :=
  cross_mark ++ lit " Backend error " ++ of_int code ++ lit ":" ++ nl ++ body.

(** [UX["success_no_text"].format(body=body)] *)
Definition success_no_text (body : str) : str :=
  check_mark ++ lit " Success, but no simple text field found:" ++ nl ++ body.

End UX.

(** The message of the expired wait, [status or 'unknown'] included. *)
Definition wait_timeout_msg (status : str) : str :=
  UX.warning_sign
  ++ lit " Backend timed out waiting for result (last status="
  ++ (if nonempty status then status else lit "unknown")
  ++ lit ").".

Definition network_err_msg (detail : str) : str :=
  UX.network_err ++ UX.nl ++ UX.nl ++ lit "Details: " ++ detail.

Definition unexpected_msg (detail : str) : str :=
  UX.cross_mark ++ lit " Unexpected error: " ++ detail.

(** ** The responses of the transport *)

Definition is_2xx (code : Z) : bool := (200 <=? code) && (code <? 300).

(** [r.raise_for_status()] of [requests]: an [HTTPError], which is a
    [RequestException], for the codes 400 to 599 and for no other. *)
Definition raise_for_status (r : Response) : result unit :=
  let tail := reason r ++ lit " for url: " ++ url r in
  if (400 <=? status_code r) && (status_code r <? 500) then
    Raise (RequestException
             (of_int (status_code r) ++ lit " Client Error: " ++ tail))
  else if (500 <=? status_code r) && (status_code r <? 600) then
    Raise (RequestException
             (of_int (status_code r) ++ lit " Server Error: " ++ tail))
  else Ok tt.

(** [r.json()]: the [JSONDecodeError] of [requests] is a
    [RequestException]; what else [json.loads] raises is not. *)
Definition response_json (r : Response) : result json :=
  match parsed r with
  | Json j => Ok j
  | NotJson error => Raise (RequestException error)
  | JsonRaises _ detail => Raise (OtherException detail)
  end.

(** ** The client *)

Definition terminal : list str :=
  [lit "completed"; lit "failed"; lit "timeout"; lit "timed_out";
   lit "cancelled"].

(** [status in terminal] *)
Definition is_terminal (status : str) : bool := existsb (eqb status) terminal.

Definition sleep_error : exn :=
  OtherException (lit "sleep length must be non-negative").

(** How the [while True] loop is left. *)
Inductive loop_exit :=
| Break
| Return (message : str).

(** The body of a submission. *)
Definition job_request (prompt : str) (user_id : Z) : json :=
  JObj [(lit "goal", JStr prompt);
        (lit "user_id", JInt user_id);
        (lit "max_depth", JInt 1);
        (lit "config_overrides",
         JObj [(lit "observability",
                JObj [(lit "mlflow", JObj [(lit "enabled", JBool false)])])])].

Section Client.

(** [str.lower] maps the ASCII capitals to their small letters. What it
    makes of a code point outside ASCII (the case mapping of Unicode,
    which looks at the neighbours of a capital sigma) is a parameter:
    the string, the index and the code point give the replacement. *)
Variable lower_nonascii : str -> nat -> N -> str.

Definition lower_at (s : str) (i : nat) (c : N) : str :=
  if (c <? 128)%N
  then [if ((65 <=? c) && (c <=? 90))%N then (c + 32)%N else c]
  else lower_nonascii s i c.

Fixpoint lower_from (s : str) (i : nat) (rest : str) : str :=
  match rest with
  | [] => []
  | c :: rest' => lower_at s i c ++ lower_from s (S i) rest'
  end.

(** [s.lower()] *)
Definition lower (s : str) : str := lower_from s 0 s.

(** [v.lower()] on a value that may or may not be a [str]. *)
Definition py_lower (v : json) : result str :=
  match v with
  | JStr s => Ok (lower s)
  | _ => Raise (attribute_error v (lit "lower"))
  end.

(** [(status_payload.get("status") or "").lower()] *)
Definition status_of (status_payload : json) : result str :=
  match py_get status_payload (lit "status") with
  | Raise e => Raise e
  | Ok v => py_lower (py_or v (JStr []))
  end.

Variable B : Backend.
Variable config : Runtime.

(** The requests. The address, the headers and the time-out of a
    request are the transport's business: the backend of the model is
    asked with the body, or with the execution identifier the address is
    made of. *)
Definition post_json (request : json) : M Response :=
  let c := post B request in
  emit (EvPost request c) ;;
  perform c.

Definition _get_status (execution_id : json) : M json :=
  n <- (fun w => ret (polls w) w) ;;
  let c := get_status B n execution_id in
  emit (EvStatus execution_id c) ;;
  r <- perform c ;;
  lift (raise_for_status r) ;;
  lift (response_json r).

Definition _get_result (execution_id : json) : M json :=
  let c := get_result B execution_id in
  emit (EvResult execution_id c) ;;
  r <- perform c ;;
  lift (raise_for_status r) ;;
  lift (response_json r).

(** [time.sleep(d)], which refuses a negative [d] with a [ValueError]. *)
Definition time_sleep (d : Z) : M unit :=
  if d <? 0 then raise sleep_error
  else
    n <- (fun w => ret (sleeps w) w) ;;
    let lasted := sleep B n d in
    emit (EvSleep d lasted) ;;
    advance lasted.

(** The [while True] loop, with a bound on its iterations. *)
Fixpoint poll_loop (fuel : nat) (execution_id : json) (t0 : Z)
    (last_status : option str) : M loop_exit :=
  match fuel with
  | O => out_of_fuel
  | S fuel' =>
      status_payload <- _get_status execution_id ;;
      status <- lift (status_of status_payload) ;;
      last_status' <-
        (match last_status with
         | Some l =>
             if eqb status l then ret last_status
             else (log (LogStatus execution_id status) ;; ret (Some status))
         | None => log (LogStatus execution_id status) ;; ret (Some status)
         end) ;;
      if is_terminal status then ret Break
      else
        now <- monotonic ;;
        if now - t0 >? max_wait config then
          ret (Return (wait_timeout_msg status))
        else
          time_sleep (poll_interval config) ;;
          poll_loop fuel' execution_id t0 last_status'
  end.

(** The [try] block of [handle_default_route]. [resp.text] is a [str],
    so [(resp.text or "")] is [resp.text]. *)
Definition route_body (fuel : nat) (prompt : str) (user_id : Z) : M str :=
  resp <- post_json (job_request prompt user_id) ;;
  if negb (is_2xx (status_code resp)) then
    ret (UX.backend_err (status_code resp) (firstn 2000 (text resp)))
  else
    let j := match parsed resp with
             | Json j => j
             | _ => JObj []
             end in
    execution_id <- lift (py_get j (lit "execution_id")) ;;
    if negb (truthy execution_id) then
      ret (UX.success_no_text
             (lit "(no execution_id)" ++ UX.nl
              ++ _json_compact j default_limit))
    else
      log (LogStarted execution_id) ;;
      t0 <- monotonic ;;
      how <- poll_loop fuel execution_id t0 None ;;
      match how with
      | Return message => ret message
      | Break =>
          result_payload <- _get_result execution_id ;;
          extracted <- lift (_extract_final_text_from_payload result_payload) ;;
          match extracted with
          | Some (c :: t) => ret (c :: t)
          | _ =>
              status <- lift (py_get result_payload (lit "status")) ;;
              final_result <-
                lift (py_get result_payload (lit "final_result")) ;;
              ret (UX.success_no_text
                     (_json_compact
                        (JObj [(lit "status", status);
                               (lit "final_result", final_result)])
                        default_limit))
          end
      end.

(** The three [except] clauses. *)
Definition on_exception (e : exn) : M str :=
  match e with
  | Timeout _ => ret UX.timeout
  | RequestException detail => ret (network_err_msg detail)
  | OtherException detail =>
      log (LogException e) ;;
      ret (unexpected_msg detail)
  end.

Definition handle_default_route (fuel : nat) (prompt : str) (user_id : Z)
  : M str :=
  catch (route_body fuel prompt user_id) on_exception.

End Client.

(** ** The extractor over the object store

    [payload] is an object the caller goes on using after the call, and
    [fr] is a reference into it, not a copy. Here the payload sits in a
    store and its parts are reached by reference, a path of keys from the
    payload, so that a write through [payload] or [fr] would show. *)

Module Store.

Definition ref := list str.

(** The object a reference leads to; a key that is absent leads to
    [None], as [dict.get] has it. *)
Fixpoint deref (o : json) (r : ref) : json :=
  match r with
  | [] => o
  | k :: r' =>
      match o with
      | JObj d => deref (dict_get d k) r'
      | _ => JNull
      end
  end.

(** Replace the object a reference leads to (an assignment such as
    [d[k] = v]); on a path that does not exist the store stays as it is. *)
Fixpoint dict_set (d : dict) (k : str) (v : json) : dict :=
  match d with
  | [] => [(k, v)]
  | (k', x) :: rest =>
      if eqb k' k then (k', v) :: rest else (k', x) :: dict_set rest k v
  end.

Fixpoint assign (o : json) (r : ref) (v : json) : json :=
  match r with
  | [] => v
  | k :: r' =>
      match o with
      | JObj d => JObj (dict_set d k (assign (dict_get d k) r' v))
      | _ => o
      end
  end.

(** Computations over the store, with exceptions. *)
Definition St (A : Type) : Type := json -> result A * json.

Definition ret {A} (a : A) : St A := fun o => (Ok a, o).

Definition bind {A B} (m : St A) (k : A -> St B) : St B :=
  fun o =>
    match m o with
    | (Ok a, o') => k a o'
    | (Raise e, o') => (Raise e, o')
    end.

Definition load (r : ref) : St json := fun o => (Ok (deref o r), o).

Definition store (r : ref) (v : json) : St unit :=
  fun o => (Ok tt, assign o r v).

(** [x.get(k)] through a reference [x]: a reference to the item. *)
Definition get (x : ref) (k : str) : St ref :=
  fun o =>
    match deref o x with
    | JObj _ => (Ok (x ++ [k]), o)
    | v => (Raise (attribute_error v (lit "get")), o)
    end.

Fixpoint probe_at (fr : ref) (keys : list str) : St (option str) :=
  match keys with
  | [] => ret None
  | k :: rest =>
      bind (get fr k) (fun v =>
      bind (load v) (fun x =>
      match x with
      | JStr s =>
          if nonempty (strip s) then ret (Some (strip s))
          else probe_at fr rest
      | _ => probe_at fr rest
      end))
  end.

Definition extract_at (payload : ref) : St (option str) :=
  bind (get payload (lit "final_result")) (fun fr =>
  bind (load fr) (fun x =>
  match x with
  | JNull => ret None
  | JStr s => ret (if nonempty (strip s) then Some (strip s) else None)
  | JObj _ =>
      bind (probe_at fr candidate_keys) (fun found =>
      match found with
      | Some v => ret (Some v)
      | None =>
          bind (load fr) (fun obj =>
          ret (Some (_json_compact obj default_limit)))
      end)
  | _ => ret None
  end)).

End Store.

(** ** The session of [build_session]

    Every request of the client goes through [RUNTIME["session"]], the
    session [build_session] makes: an [HTTPAdapter] of [requests] whose
    [max_retries] is the [Retry] below, mounted for both schemes. What
    follows is the part of [urllib3] and [requests] that decides how
    often a request is tried and which exception the client sees
    ([Retry.increment], [Retry.is_retry], [HTTPConnectionPool.urlopen]
    and the [except] clauses of [HTTPAdapter.send]). *)

Module Session.

























End Session.

(** ** Notions the statements use *)

(** The world a call of [handle_default_route] starts in. *)
Definition start (t : Z) : World := {| clock := t; trace := [] |}.

(** The value of field [k] of [fr] when it is a string that is not empty
    once trimmed: that string, trimmed. *)
Definition text_of (fr : dict) (k : str) : option str :=
  match dict_get fr k with
  | JStr v => if nonempty (strip v) then Some (strip v) else None
  | _ => None
  end.



(** A message that names the status [s] as the last one. *)
Definition names_status (message s : str) : Prop :=
  message =
    UX.warning_sign
    ++ lit " Backend timed out waiting for result (last status="
    ++ s ++ lit ").".

(** The payload a status request delivered to the loop, when it did. *)
Definition delivered (c : call) : result json :=
  match reply_of c with
  | Fails e => Raise e
  | Answers r =>
      match raise_for_status r with
      | Raise e => Raise e
      | Ok _ => response_json r
      end
  end.

Definition observed_payload (e : event) : option json :=
  match e with
  | EvStatus _ c =>
      match delivered c with
      | Ok p => Some p
      | Raise _ => None
      end
  | _ => None
  end.

(** The status payloads observed in a trace. *)
Definition observed (tr : list event) : list json :=
  flat_map (fun e => match observed_payload e with
                     | Some p => [p]
                     | None => []
                     end) tr.

(** How long the latest sleep and the latest status request of a trace
    lasted; zero when there is none. *)
Fixpoint last_sleep (tr : list event) : Z :=
  match tr with
  | [] => 0
  | EvSleep _ lasted :: _ => lasted
  | _ :: rest => last_sleep rest
  end.

Fixpoint last_poll (tr : list event) : Z :=
  match tr with
  | [] => 0
  | EvStatus _ c :: _ => took c
  | _ :: rest => last_poll rest
  end.

(** The text of the [HTTPError] that [raise_for_status] raises. *)
Definition http_error_text (r : Response) : str :=
  of_int (status_code r)
  ++ (if status_code r <? 500 then lit " Client Error: "
      else lit " Server Error: ")
  ++ reason r ++ lit " for url: " ++ url r.

(** A status or result request of the trace that was answered with the
    response [r]. *)
Definition answered_with (r : Response) (e : event) : Prop :=
  match e with
  | EvStatus _ c | EvResult _ c => reply_of c = Answers r
  | _ => False
  end.

(** The worlds a run goes through: after the submission, after a line
    of the log, after a status request, after the note of a status that
    changed, after the sleep of one round and after the result request. *)
Definition posted (request : json) (c : call) (w : World) : World :=
  {| clock := clock w + took c; trace := EvPost request c :: trace w |}.

Definition logged (l : log_record) (w : World) : World :=
  {| clock := clock w; trace := EvLog l :: trace w |}.

Definition requested (execution_id : json) (c : call) (w : World) : World :=
  {| clock := clock w + took c; trace := EvStatus execution_id c :: trace w |}.

Definition noted (execution_id : json) (last_status : option str)
    (status : str) (w : World) : World :=
  match last_status with
  | Some l =>
      if eqb status l then w else logged (LogStatus execution_id status) w
  | None => logged (LogStatus execution_id status) w
  end.

Definition slept (B : Backend) (d : Z) (w : World) : World :=
  {| clock := clock w + sleep B (sleeps w) d;
     trace := EvSleep d (sleep B (sleeps w) d) :: trace w |}.

Definition fetched (execution_id : json) (c : call) (w : World) : World :=
  {| clock := clock w + took c; trace := EvResult execution_id c :: trace w |}.

(** The text an exception is turned into. *)
Definition message_of (e : exn) : str :=
  match e with
  | Timeout _ => UX.timeout
  | RequestException detail => network_err_msg detail
  | OtherException detail => unexpected_msg detail
  end.

(** The text made of a result payload (the lines after the loop). *)
Definition text_of_result (result_payload : json) : result str :=
  match _extract_final_text_from_payload result_payload with
  | Raise e => Raise e
  | Ok (Some (c :: t)) => Ok (c :: t)
  | Ok _ =>
      match py_get result_payload (lit "status") with
      | Raise e => Raise e
      | Ok status =>
          match py_get result_payload (lit "final_result") with
          | Raise e => Raise e
          | Ok final_result =>
              Ok (UX.success_no_text
                    (_json_compact
                       (JObj [(lit "status", status);
                              (lit "final_result", final_result)])
                       default_limit))
          end
      end
  end.

Section Schedule.

Variable lower_nonascii : str -> nat -> N -> str.
Variable B : Backend.
Variable config : Runtime.
Variable execution_id : json.

(** The status the loop reads in round [i] (rounds count from 0), or
    the exception that round raises. *)
Definition status_at (i : nat) : result str :=
  match delivered (get_status B i execution_id) with
  | Raise e => Raise e
  | Ok status_payload => status_of lower_nonascii status_payload
  end.

(** The time since [t0] at the check of round [i], in a run in which
    the rounds before it went on to sleep. *)
Fixpoint elapsed (i : nat) : Z :=
  match i with
  | O => took (get_status B 0 execution_id)
  | S j =>
      elapsed j + sleep B j (poll_interval config)
      + took (get_status B (S j) execution_id)
  end.

(** A status that is terminal was observed in the trace. *)
Definition terminal_seen (tr : list event) : Prop :=
  exists status_payload s,
    In status_payload (observed tr)
    /\ status_of lower_nonascii status_payload = Ok s
    /\ is_terminal s = true.

End Schedule.

(** A status or result request of the trace got the answer [r], whose
    code is one [raise_for_status] raises for. *)
Definition http_error_seen (tr : list event) (r : Response) : Prop :=
  (exists e, In e tr /\ answered_with r e)
  /\ 400 <= status_code r < 600.

(** ** Backends of the examples *)

Module Examples.

(** Code points outside ASCII left as they are: the case mapping used
    where a run has ASCII statuses only. *)
Definition keep_nonascii : str -> nat -> N -> str := fun _ _ c => [c].

Definition api_url : str := lit "http://localhost:8000/api/v1/executions".
Definition status_url : str := api_url ++ lit "/abc/status".
Definition result_url : str := api_url ++ lit "/abc".

(** A response whose text is the JSON document [j]. *)
Definition json_answer (lasted code : Z) (why where_ : str) (j : json)
  : call :=
  {| took := lasted;
     reply_of := Answers {| status_code := code; reason := why;
                            url := where_; text := json_dumps j;
                            parsed := Json j |} |}.

(** A response whose text is not JSON. *)
Definition plain_answer (lasted code : Z) (why where_ content : str) : call :=
  {| took := lasted;
     reply_of := Answers {| status_code := code; reason := why;
                            url := where_; text := content;
                            parsed := NotJson (lit "Expecting value: line 1 column 1 (char 0)") |} |}.

Definition abc : json := JStr (lit "abc").

Definition accepted : call :=
  json_answer 20 202 (lit "Accepted") api_url
    (JObj [(lit "execution_id", abc)]).

Definition status_is (lasted : Z) (status : string) : call :=
  json_answer lasted 200 (lit "OK") status_url
    (JObj [(lit "status", JStr (lit status))]).

Definition result_42 : call :=
  json_answer 5 200 (lit "OK") result_url
    (JObj [(lit "status", JStr (lit "completed"));
           (lit "final_result", JStr (lit "42"))]).

(** Submission accepted, then running, then completed, then 42. *)
Definition backend_42 : Backend :=
  {| post := fun _ => accepted;
     get_status := fun n _ =>
       match n with
       | O => status_is 5 "running"
       | _ => status_is 5 "completed"
       end;
     get_result := fun _ => result_42;
     sleep := fun _ d => d |}.

(** Submission accepted, then running, then [COMPLETED] in capitals,
    then 42. *)
Definition backend_capital : Backend :=
  {| post := fun _ => accepted;
     get_status := fun n _ =>
       match n with
       | O => status_is 5 "running"
       | _ => status_is 5 "COMPLETED"
       end;
     get_result := fun _ => result_42;
     sleep := fun _ d => d |}.

(** Submission refused with 503 and a text. *)
Definition backend_refuses : Backend :=
  {| post := fun _ =>
       plain_answer 20 503 (lit "Service Unavailable") api_url
         (lit "upstream down");
     get_status := fun _ _ => status_is 5 "running";
     get_result := fun _ => result_42;
     sleep := fun _ d => d |}.


(** Running for the rounds 0 to 120, one second apart, then a status
    payload without a status. *)
Definition backend_stalls : Backend :=
  {| post := fun _ => accepted;
     get_status := fun n _ =>
       if (n <? 121)%nat then status_is 0 "running"
       else json_answer 0 200 (lit "OK") status_url (JObj []);
     get_result := fun _ => result_42;
     sleep := fun _ d => d |}.

(** Running for the rounds 0 to 120, one second apart, then completed,
    by a status request that takes five seconds. *)
Definition backend_slow_last : Backend :=
  {| post := fun _ => accepted;
     get_status := fun n _ =>
       if (n <? 121)%nat then status_is 0 "running"
       else status_is 5000 "completed";
     get_result := fun _ => result_42;
     sleep := fun _ d => d |}.

(** The status request answered with 300 and a status document. *)
Definition backend_300 : Backend :=
  {| post := fun _ => accepted;
     get_status := fun _ _ =>
       json_answer 5 300 (lit "Multiple Choices") status_url
         (JObj [(lit "status", JStr (lit "completed"))]);
     get_result := fun _ => result_42;
     sleep := fun _ d => d |}.

(** The status request answered with 404. *)
Definition not_found : Response :=
  {| status_code := 404; reason := lit "Not Found"; url := status_url;
     text := lit "{}"; parsed := Json (JObj []) |}.

Definition backend_404 : Backend :=
  {| post := fun _ => accepted;
     get_status := fun _ _ => {| took := 5; reply_of := Answers not_found |};
     get_result := fun _ => result_42;
     sleep := fun _ d => d |}.




(** A budget of two and a half seconds, polled every second. *)
Definition quick : Runtime := {| poll_interval := 1000; max_wait := 2500 |}.

End Examples.

(** ** The scenario of the specification *)

(** A request answered, without an HTTP error, with the document [j]. *)
Definition answers_json (c : call) (j : json) : Prop :=
  exists r,
    reply_of c = Answers r /\ raise_for_status r = Ok tt /\ parsed r = Json j.

(** Submission answered [202 {"execution_id":"abc"}], first status
    running, second status completed, result 42. *)
Definition scenario_42 (B : Backend) (request : json) : Prop :=
  (exists r,
      reply_of (post B request) = Answers r
      /\ status_code r = 202
      /\ parsed r = Json (JObj [(lit "execution_id", JStr (lit "abc"))]))
  /\ answers_json (get_status B 0 (JStr (lit "abc")))
       (JObj [(lit "status", JStr (lit "running"))])
  /\ answers_json (get_status B 1 (JStr (lit "abc")))
       (JObj [(lit "status", JStr (lit "completed"))])
  /\ answers_json (get_result B (JStr (lit "abc")))
       (JObj [(lit "status", JStr (lit "completed"));
              (lit "final_result", JStr (lit "42"))]).

(** The request of event [ev] raised [e]: the submission by failing, a
    status or result request by failing, by its HTTP code or by a body
    that [r.json()] does not take. *)
Definition request_raised (ev : event) (e : exn) : Prop :=
  match ev with
  | EvPost _ c => reply_of c = Fails e
  | EvStatus _ c | EvResult _ c => delivered c = Raise e
  | _ => False
  end.


(** ** The rest of [bot.py]: trimming, settings and commands *)

(** [s[:n]] for any integer [n]: a negative [n] counts from the end. *)
Definition slice_to (s : str) (n : Z) : str :=
  if n <? 0 then firstn (length s - Z.to_nat (- n)) s
  else firstn (Z.to_nat n) s.

(** [s.endswith(suffix)] *)
Definition endswith (s suffix : str) : bool :=
  eqb (skipn (length s - length suffix) s) suffix.

(** [s.partition(" ")[2]]: what follows the first space. *)
Fixpoint after_first_space (s : str) : str :=
  match s with
  | [] => []
  | c :: rest => if (c =? 32)%N then rest else after_first_space rest
  end.

(** The entry [max_user_msg_len] of [RUNTIME]. *)
Definition max_user_msg_len : Z := 2000.

(** [UX["trim_warn"].format(n=n)] *)
Definition trim_warn (n : Z) : str :=
  lit "Note: your message was long; I sent the first " ++ of_int n
  ++ lit " characters.".

(** [_soft_trim_user_text(s)], with the limit read from [RUNTIME]. *)
Definition _soft_trim_user_text (limit : Z) (s : str) : str * option str :=
  if limit <? Z.of_nat (length s)
  then (slice_to s limit, Some (trim_warn limit))
  else (s, None).

(** The cut of a reply in [handle_text]. *)
Definition cut_reply (reply : str) : str :=
  if (4000 <? length reply)%nat then firstn 4000 reply ++ ellipsis
  else reply.

(** Where the requests of an execution go. *)
Definition status_url_of (api_base id : str) : str :=
  api_base ++ lit "/executions/" ++ id ++ lit "/status".

Definition result_url_of (api_base id : str) : str :=
  api_base ++ lit "/executions/" ++ id.

Definition health_url_of (api_base : str) : str := api_base ++ lit "/health".

Module Commands.

(** The addresses kept in [RUNTIME]. *)
Record Endpoints := {
  api_url : str;
  api_base : str
}.

Definition seturl_usage : str :=
  lit "Usage: /seturl http://host:port/api/v1/executions".

(** [UX["seturl_ok"].format(url=url, base=base)] *)
Definition seturl_ok (url base : str) : str :=
  UX.check_mark ++ lit " API URL set:" ++ UX.nl ++ url ++ UX.nl
  ++ lit "(base: " ++ base ++ lit ")".

(** [seturl]: the arguments of the command, the settings before; the
    settings after and the reply. *)
Definition seturl (args : list str) (e : Endpoints) : Endpoints * str :=
  match args with
  | [] => (e, seturl_usage)
  | _ :: _ =>
      let url := strip (join (lit " ") args) in
      let base :=
        if endswith url (lit "/executions")
        then slice_to url (- Z.of_nat (length (lit "/executions")))
        else url in
      ({| api_url := url; api_base := base |}, seturl_ok url base)
  end.

(** [UX["ping_ok"]] and [UX["ping_err"]], filled in. *)
Definition ping_ok (url : str) (code : Z) : str :=
  UX.check_mark ++ lit " Ping OK: GET " ++ url ++ UX.nl
  ++ lit "Status: " ++ of_int code.

Definition ping_err (url details : str) : str :=
  UX.cross_mark ++ lit " Ping failed: GET " ++ url ++ UX.nl ++ details.

(** [ping]: [health] is the GET of the health address as the transport
    completes it. The two [except] clauses leave any other exception to
    the caller. *)
Definition ping (health : call) (e : Endpoints) : M str :=
  let url := health_url_of (api_base e) in
  catch
    (r <- perform health ;;
     ret (ping_ok url (status_code r)))
    (fun ex =>
       match ex with
       | Timeout _ => ret UX.timeout
       | RequestException details => ret (ping_err url details)
       | OtherException _ => raise ex
       end).

Definition raw_usage : str :=
  lit "Usage: /raw {" ++ [34%N] ++ lit "goal" ++ [34%N] ++ lit ":"
  ++ [34%N] ++ lit "hello" ++ [34%N] ++ lit "," ++ [34%N]
  ++ lit "max_depth" ++ [34%N] ++ lit ":1}".

Definition parse_error_msg (detail : str) : str :=
  UX.cross_mark ++ lit " JSON parse error: " ++ detail.

(** The cut of the reply of [raw]. *)
Definition cut_raw (msg : str) : str :=
  if (3900 <? length msg)%nat then firstn 3900 msg ++ ellipsis else msg.

(** The text [raw] makes of a response. The inner [except ValueError]
    takes the decoding error and any other [ValueError] of [resp.json()]
    to the text of the body; an exception that is not a [ValueError] is
    left to the outer handlers. *)
Definition raw_message (resp : Response) : result str :=
  let head := lit "Status: " ++ of_int (status_code resp) ++ UX.nl in
  let text_body :=
    if (3500 <? length (text resp))%nat
    then firstn 3500 (text resp) ++ ellipsis
    else text resp in
  let of_text :=
    head ++ (if nonempty text_body then text_body else lit "(empty)") in
  match parsed resp with
  | Json j => Ok (cut_raw (head ++ _json_compact j 3500))
  | NotJson _ => Ok (cut_raw of_text)
  | JsonRaises true _ => Ok (cut_raw of_text)
  | JsonRaises false detail => Raise (OtherException detail)
  end.

Section Raw.

(** [json.loads] on the text of the command, the library's parser. *)
Variable loads : str -> body.
Variable B : Backend.

(** [raw]: the text of the message; the reply. *)
Definition raw (message_text : str) : M str :=
  let body_txt := strip (after_first_space message_text) in
  if negb (nonempty body_txt) then ret raw_usage
  else
    match loads body_txt with
    | NotJson detail => ret (parse_error_msg detail)
    | JsonRaises _ detail => ret (parse_error_msg detail)
    | Json (JObj d) =>
        catch
          (resp <- post_json B (JObj d) ;;
           lift (raw_message resp))
          (fun ex =>
             match ex with
             | Timeout _ => ret UX.timeout
             | RequestException _ => ret UX.network_err
             | OtherException detail =>
                 log (LogException ex) ;;
                 ret (unexpected_msg detail)
             end)
    | Json _ =>
        ret (parse_error_msg (lit "Top-level JSON must be an object."))
    end.

End Raw.

End Commands.

Section Handlers.

Variable lower_nonascii : str -> nat -> N -> str.
Variable B : Backend.
Variable config : Runtime.

(** The statuses the loop read, the latest first: one for each status
    request that delivered a payload with a status that can be read. *)
Fixpoint read_statuses (tr : list event) : list str :=
  match tr with
  | [] => []
  | EvStatus _ c :: rest =>
      match delivered c with
      | Ok status_payload =>
          match status_of lower_nonascii status_payload with
          | Ok s => s :: read_statuses rest
          | Raise _ => read_statuses rest
          end
      | Raise _ => read_statuses rest
      end
  | _ :: rest => read_statuses rest
  end.

(** [handle_text]: the text of the message (or none), the sender and the
    limit of [RUNTIME]; the replies in the order they are sent. The
    typing notice, whose failure is passed over, is not part of the
    model. *)
Definition handle_text (limit : Z) (fuel : nat) (message_text : option str)
    (user_id : Z) : M (list str) :=
  let user_msg_raw :=
    strip (match message_text with
           | Some t => if nonempty t then t else []
           | None => []
           end) in
  let '(user_msg, warn) := _soft_trim_user_text limit user_msg_raw in
  reply <- handle_default_route lower_nonascii B config fuel user_msg user_id ;;
  let reply := cut_reply reply in
  ret (match warn with
       | Some w => if nonempty w then [w; reply] else [reply]
       | None => [reply]
       end).

End Handlers.

(** ** More notions for the statements *)

Definition is_post (e : event) : bool :=
  match e with EvPost _ _ => true | _ => false end.

(** The execution identifier a status or result request was made with. *)
Definition request_id (ev : event) : option json :=
  match ev with
  | EvStatus id _ | EvResult id _ => Some id
  | _ => None
  end.

(** The statuses written to the log, the latest first. *)
Fixpoint logged_statuses (tr : list event) : list str :=
  match tr with
  | [] => []
  | EvLog (LogStatus _ s) :: rest => s :: logged_statuses rest
  | _ :: rest => logged_statuses rest
  end.

(** A list of statuses, the latest first, without those that repeat
    the one before them. *)
Fixpoint changes (l : list str) : list str :=
  match l with
  | [] => []
  | a :: rest =>
      match rest with
      | [] => [a]
      | b :: _ => if eqb a b then changes rest else a :: changes rest
      end
  end.

(** The world and the text the handlers make of an exception. *)
Definition excepted (e : exn) (w : World) : option (result str) * World :=
  (Some (Ok (message_of e)),
   match e with
   | OtherException _ => logged (LogException e) w
   | _ => w
   end).

(** The goal of a job request. *)
Definition goal_of (request : json) : json :=
  match request with
  | JObj d => dict_get d (lit "goal")
  | _ => JNull
  end.

(** A code point that is not white space. *)
Definition no_space_at (c : option N) : Prop :=
  match c with
  | Some c => isspace c = false
  | None => True
  end.

(** ** More backends for the examples *)

Module MoreExamples.

(** Submission answered 200 with a JSON array. *)
Definition backend_list_body : Backend :=
  {| post := fun _ =>
       Examples.json_answer 20 200 (lit "OK") Examples.api_url
         (JArr [JInt 1]);
     get_status := fun _ _ => Examples.status_is 5 "running";
     get_result := fun _ => Examples.result_42;
     sleep := fun _ d => d |}.

(** A status document whose status is the number 5. *)
Definition status_5 : call :=
  Examples.json_answer 5 200 (lit "OK") Examples.status_url
    (JObj [(lit "status", JInt 5)]).

Definition backend_status_5 : Backend :=
  {| post := fun _ => Examples.accepted;
     get_status := fun _ _ => status_5;
     get_result := fun _ => Examples.result_42;
     sleep := fun _ d => d |}.


End MoreExamples.

(** ** The headers *)

Module Headers.





Section WithParser.

(** [json.loads] on the text of the command, the library's parser. *)
Variable loads : str -> body.


End WithParser.

Section WithLower.

Variable lower_nonascii : str -> nat -> N -> str.


End WithLower.

End Headers.

(** * Properties *)

(** ** Strings and dictionaries *)

Lemma eqb_eq (a b : str) : eqb a b = true <-> a = b.
Proof.
  unfold eqb. destruct (list_eq_dec N.eq_dec a b); split; congruence.
Qed.

Lemma eqb_refl (a : str) : eqb a a = true.
Proof. apply eqb_eq. reflexivity. Qed.

Lemma gtb_false (a b : Z) : a <= b -> (a >? b) = false.
Proof. intros H. rewrite Z.gtb_ltb. apply Z.ltb_ge. exact H. Qed.

Lemma ltb_false (a b : Z) : b <= a -> (a <? b) = false.
Proof. intros H. apply Z.ltb_ge. exact H. Qed.

Lemma gtb_true (a b : Z) : b < a -> (a >? b) = true.
Proof. intros H. rewrite Z.gtb_ltb. apply Z.ltb_lt. exact H. Qed.


Lemma startswith_app (needle rest : str) :
  startswith (needle ++ rest) needle = true.
Proof.
  induction needle as [| c needle IH]; simpl; [reflexivity |].
  rewrite N.eqb_refl. exact IH.
Qed.

Lemma contains_app (before needle rest : str) :
  contains (before ++ needle ++ rest) needle = true.
Proof.
  induction before as [| c before IH]; simpl.
  - assert (H : forall s, startswith s needle = true ->
                          contains s needle = true)
      by (intros [| c s] Hs; simpl; rewrite Hs; reflexivity).
    apply H, startswith_app.
  - rewrite IH. apply orb_true_r.
Qed.

Lemma contains_end (before needle : str) :
  contains (before ++ needle) needle = true.
Proof.
  pose proof (contains_app before needle []) as H.
  rewrite app_nil_r in H. exact H.
Qed.

(** ** The extractor *)

Lemma probe_cons (fr : dict) (k : str) (rest : list str) :
  probe fr (k :: rest) =
  match text_of fr k with
  | Some t => Some t
  | None => probe fr rest
  end.
Proof.
  unfold text_of. simpl.
  destruct (dict_get fr k); try reflexivity.
  destruct (nonempty (strip s)); reflexivity.
Qed.



Lemma probe_some_first (fr : dict) (keys : list str) (t : str) :
  probe fr keys = Some t ->
  exists before k after,
    keys = before ++ k :: after
    /\ Forall (fun k' => text_of fr k' = None) before
    /\ text_of fr k = Some t.
Proof.
  induction keys as [| k keys IH]; [discriminate |].
  rewrite probe_cons. destruct (text_of fr k) as [t' |] eqn:E.
  - intros [= ->]. exists [], k, keys. auto.
  - intros H. destruct (IH H) as (before & k0 & after & -> & Hb & Hk).
    exists (k :: before), k0, after. auto.
Qed.


Lemma extract_final_text_fallback :
  exists rendering,
    _extract_final_text_from_payload
      (JObj [(lit "final_result", JObj [(lit "other", JInt 1)])])
    = Ok (Some rendering)
    /\ contains rendering ([34%N] ++ lit "other" ++ [34%N] ++ lit ": 1") = true
  /\ _extract_final_text_from_payload (JObj [(lit "final_result", JStr [])])
     = Ok None.
Proof. eexists. repeat split. Qed.


(** ** One round of the poll loop *)

Section Rounds.

Variable lower_nonascii : str -> nat -> N -> str.
Variable B : Backend.
Variable config : Runtime.

Notation status := (status_of lower_nonascii).
Notation loop := (poll_loop lower_nonascii B config).
Notation route := (route_body lower_nonascii B config).
Notation handle := (handle_default_route lower_nonascii B config).

Lemma _get_status_run (execution_id : json) (w : World) :
  let c := get_status B (polls w) execution_id in
  _get_status B execution_id w =
  (Some (delivered c), requested execution_id c w).
Proof.
  unfold _get_status, delivered, requested, perform, bind, emit, advance,
    lift, ret, raise. cbn.
  destruct (reply_of (get_status B (polls w) execution_id)) as [r | e];
    [| reflexivity].
  destruct (raise_for_status r) as [[] | e]; reflexivity.
Qed.

Lemma poll_loop_step (fuel : nat) (execution_id : json) (t0 : Z)
    (last_status : option str) (w : World) :
  loop (S fuel) execution_id t0 last_status w =
  let c := get_status B (polls w) execution_id in
  let w1 := requested execution_id c w in
  match delivered c with
  | Raise e => (Some (Raise e), w1)
  | Ok status_payload =>
      match status status_payload with
      | Raise e => (Some (Raise e), w1)
      | Ok s =>
          let w2 := noted execution_id last_status s w1 in
          if is_terminal s then (Some (Ok Break), w2)
          else if clock w2 - t0 >? max_wait config then
            (Some (Ok (Return (wait_timeout_msg s))), w2)
          else if poll_interval config <? 0 then
            (Some (Raise sleep_error), w2)
          else
            loop fuel execution_id t0 (Some s)
              (slept B (poll_interval config) w2)
      end
  end.
Proof.
  cbn zeta. cbn [poll_loop]. unfold bind at 1.
  rewrite _get_status_run.
  destruct (delivered (get_status B (polls w) execution_id))
    as [status_payload | e]; [| reflexivity].
  unfold bind at 1, lift at 1.
  destruct (status status_payload) as [s | e]; [| reflexivity].
  unfold bind at 1.
  set (w1 := requested execution_id _ w).
  assert (Hnote :
    (match last_status with
     | Some l =>
         if eqb s l then ret last_status
         else log (LogStatus execution_id s);; ret (Some s)
     | None => log (LogStatus execution_id s);; ret (Some s)
     end) w1
    = (Some (Ok (Some s)), noted execution_id last_status s w1)).
  { unfold noted. destruct last_status as [l |]; [| reflexivity].
    destruct (eqb s l) eqn:E; [| reflexivity].
    apply eqb_eq in E. subst l. reflexivity. }
  rewrite Hnote.
  destruct (is_terminal s); [reflexivity |].
  unfold bind at 1, monotonic.
  destruct (clock (noted execution_id last_status s w1) - t0
            >? max_wait config); [reflexivity |].
  unfold bind at 1, time_sleep.
  destruct (poll_interval config <? 0); reflexivity.
Qed.

Lemma _get_result_run (execution_id : json) (w : World) :
  let c := get_result B execution_id in
  _get_result B execution_id w =
  (Some (delivered c), fetched execution_id c w).
Proof.
  unfold _get_result, delivered, fetched, perform, bind, emit, advance,
    lift, ret, raise. cbn.
  destruct (reply_of (get_result B execution_id)) as [r | e];
    [| reflexivity].
  destruct (raise_for_status r) as [[] | e]; reflexivity.
Qed.

(** What the lines after the loop make of the world [w] the loop left. *)
Lemma after_break_run (execution_id : json) (w : World) :
  (result_payload <- _get_result B execution_id ;;
   extracted <- lift (_extract_final_text_from_payload result_payload) ;;
   match extracted with
   | Some (c :: t) => ret (c :: t)
   | _ =>
       status <- lift (py_get result_payload (lit "status")) ;;
       final_result <- lift (py_get result_payload (lit "final_result")) ;;
       ret (UX.success_no_text
              (_json_compact
                 (JObj [(lit "status", status);
                        (lit "final_result", final_result)])
                 default_limit))
   end) w
  = let c := get_result B execution_id in
    (Some (match delivered c with
           | Raise e => Raise e
           | Ok result_payload => text_of_result result_payload
           end),
     fetched execution_id c w).
Proof.
  cbn zeta. unfold bind at 1. rewrite _get_result_run.
  destruct (delivered (get_result B execution_id)) as [p | e];
    [| reflexivity].
  unfold text_of_result, bind, lift, ret.
  destruct (_extract_final_text_from_payload p) as [[[| c t] |] | e];
    try reflexivity;
    destruct (py_get p (lit "status")) as [st | e]; try reflexivity;
    destruct (py_get p (lit "final_result")) as [fr | e]; reflexivity.
Qed.

Lemma route_body_run (fuel : nat) (prompt : str) (user_id : Z) (w : World) :
  route fuel prompt user_id w =
  let request := job_request prompt user_id in
  let c := post B request in
  let w1 := posted request c w in
  match reply_of c with
  | Fails e => (Some (Raise e), w1)
  | Answers resp =>
      if is_2xx (status_code resp) then
        let j := match parsed resp with
                 | Json j => j
                 | _ => JObj []
                 end in
        match py_get j (lit "execution_id") with
        | Raise e => (Some (Raise e), w1)
        | Ok execution_id =>
            if truthy execution_id then
              let w2 := logged (LogStarted execution_id) w1 in
              match loop fuel execution_id (clock w2) None w2 with
              | (Some (Ok Break), w3) =>
                  let c' := get_result B execution_id in
                  (Some (match delivered c' with
                         | Raise e => Raise e
                         | Ok result_payload => text_of_result result_payload
                         end),
                   fetched execution_id c' w3)
              | (Some (Ok (Return message)), w3) => (Some (Ok message), w3)
              | (Some (Raise e), w3) => (Some (Raise e), w3)
              | (None, w3) => (None, w3)
              end
            else
              (Some (Ok (UX.success_no_text
                           (lit "(no execution_id)" ++ UX.nl
                            ++ _json_compact j default_limit))), w1)
        end
      else
        (Some (Ok (UX.backend_err (status_code resp)
                     (firstn 2000 (text resp)))), w1)
  end.
Proof.
  cbn zeta. unfold route_body, post_json.
  unfold bind at 1. unfold bind at 1. unfold emit at 1.
  unfold perform, bind at 1, advance at 1. cbn [clock trace].
  fold (posted (job_request prompt user_id)
          (post B (job_request prompt user_id)) w).
  destruct (reply_of (post B (job_request prompt user_id))) as [resp | e];
    [| reflexivity].
  unfold ret at 1.
  destruct (is_2xx (status_code resp)); [| reflexivity].
  cbn [negb]. unfold bind at 1, lift at 1.
  destruct (py_get _ (lit "execution_id")) as [execution_id | e];
    [| reflexivity].
  destruct (truthy execution_id); [| reflexivity].
  cbn [negb]. unfold bind at 1, log at 1, emit at 1.
  unfold bind at 1, monotonic at 1. cbn [clock trace].
  fold (logged (LogStarted execution_id)
          (posted (job_request prompt user_id)
             (post B (job_request prompt user_id)) w)).
  unfold bind at 1.
  destruct (loop fuel execution_id _ None _) as [[[[| message] | e] |] w3];
    try reflexivity.
  apply after_break_run.
Qed.

Lemma on_exception_run (e : exn) (w : World) :
  on_exception e w =
  (Some (Ok (message_of e)),
   match e with
   | OtherException _ => logged (LogException e) w
   | _ => w
   end).
Proof. destruct e; reflexivity. Qed.

Lemma handle_run (fuel : nat) (prompt : str) (user_id : Z) (w : World) :
  handle fuel prompt user_id w =
  match route fuel prompt user_id w with
  | (Some (Raise e), w') => on_exception e w'
  | other => other
  end.
Proof. reflexivity. Qed.

End Rounds.

(** ** The submission *)

Section Submission.

Variable lower_nonascii : str -> nat -> N -> str.
Variable B : Backend.
Variable config : Runtime.

Notation handle := (handle_default_route lower_nonascii B config).

(** C3. A submission answered with a code outside 200..299 gives the
    backend-error text with that code and with the first 2000
    characters of the body, and no status or result request is made. *)
Theorem backend_error_on_non_2xx (fuel : nat) (prompt : str) (user_id t : Z)
    (r : Response) :
  reply_of (post B (job_request prompt user_id)) = Answers r ->
  is_2xx (status_code r) = false ->
  let shown := firstn 2000 (text r) in
  let message := UX.backend_err (status_code r) shown in
  exists w',
    handle fuel prompt user_id (start t) = (Some (Ok message), w')
    /\ message = UX.cross_mark ++ lit " Backend error "
                 ++ of_int (status_code r) ++ lit ":" ++ UX.nl ++ shown
    /\ contains message (of_int (status_code r)) = true
    /\ contains message shown = true
    /\ (length shown <= 2000)%nat
    /\ (exists rest, text r = shown ++ rest)
    /\ polls w' = 0%nat /\ fetches w' = 0%nat.
Proof.
  intros Hpost Hcode shown message.
  rewrite handle_run, route_body_run. cbn zeta.
  rewrite Hpost, Hcode.
  eexists. split; [reflexivity |].
  split; [reflexivity |].
  split.
  { unfold message, UX.backend_err.
    rewrite (app_assoc UX.cross_mark). apply contains_app. }
  split.
  { unfold message, UX.backend_err.
    rewrite !app_assoc. apply contains_end. }
  split; [apply firstn_le_length |].
  split; [exists (skipn 2000 (text r)); symmetry; apply firstn_skipn |].
  split; reflexivity.
Qed.


Section Scenario.

Variables (prompt : str) (user_id : Z).
Hypothesis scenario : scenario_42 B (job_request prompt user_id).

Lemma delivered_json (c : call) (j : json) :
  answers_json c j -> delivered c = Ok j.
Proof.
  intros (r & Hr & Hstatus & Hj). unfold delivered, response_json.
  rewrite Hr, Hstatus, Hj. reflexivity.
Qed.

(** C2. In the scenario, when the first status request returns within
    the budget and the polling interval is not negative, the call returns
    [42] after two status requests and one result request. *)
Theorem scenario_42_returns (fuel : nat) (t : Z) :
  took (get_status B 0 (JStr (lit "abc"))) <= max_wait config ->
  0 <= poll_interval config ->
  (2 <= fuel)%nat ->
  exists w',
    handle fuel prompt user_id (start t) = (Some (Ok (lit "42")), w')
    /\ polls w' = 2%nat /\ fetches w' = 1%nat.
Proof.
  intros Hbudget Hinterval Hfuel.
  destruct scenario as ((r & Hpost & Hcode & Hbody) & H0 & H1 & Hres).
  destruct fuel as [| [| fuel']]; try lia.
  rewrite handle_run, route_body_run. cbn zeta.
  rewrite Hpost. unfold is_2xx. rewrite Hcode, Hbody. cbn [andb Z.leb Z.ltb Z.compare Pos.compare Pos.compare_cont].
  cbn [py_get dict_get]. rewrite eqb_refl.
  change (truthy (JStr (lit "abc"))) with true. cbv iota.
  rewrite poll_loop_step. cbn zeta.
  change (polls (logged _ (posted _ _ (start t)))) with 0%nat.
  rewrite (delivered_json _ _ H0).
  change (status_of lower_nonascii (JObj [(lit "status", JStr (lit "running"))]))
    with (@Ok str (lit "running")).
  change (is_terminal (lit "running")) with false. cbv iota.
  cbn [noted logged requested posted clock trace start].
  replace (t + _ + _ - (t + _) >? max_wait config) with false
    by (symmetry; apply gtb_false; lia).
  rewrite (ltb_false _ _ Hinterval).
  rewrite poll_loop_step. cbn zeta.
  change (polls (slept _ _ _)) with 1%nat.
  rewrite (delivered_json _ _ H1).
  change (status_of lower_nonascii
            (JObj [(lit "status", JStr (lit "completed"))]))
    with (@Ok str (lit "completed")).
  change (is_terminal (lit "completed")) with true. cbv iota.
  rewrite (delivered_json _ _ Hres).
  eexists. split; [reflexivity | split; reflexivity].
Qed.

End Scenario.

End Submission.

Lemma backend_error_on_503 :
  exists w',
    handle_default_route Examples.keep_nonascii Examples.backend_refuses
      RUNTIME 0 (lit "hi") 7 (start 0)
    = (Some (Ok (UX.backend_err 503 (lit "upstream down"))), w')
    /\ polls w' = 0%nat /\ fetches w' = 0%nat.
Proof.
  destruct (backend_error_on_non_2xx Examples.keep_nonascii
              Examples.backend_refuses RUNTIME 0 (lit "hi") 7 0
              _ eq_refl eq_refl)
    as (w' & Hrun & _ & _ & _ & _ & _ & Hpolls & Hfetches).
  exists w'. split; [exact Hrun | split; assumption].
Defined.



Lemma scenario_42_example :
  exists w',
    handle_default_route Examples.keep_nonascii Examples.backend_42
      RUNTIME 2 (lit "hi") 7 (start 0)
    = (Some (Ok (lit "42")), w')
    /\ polls w' = 2%nat /\ fetches w' = 1%nat.
Proof.
  apply (scenario_42_returns Examples.keep_nonascii Examples.backend_42
           RUNTIME (lit "hi") 7).
  - unfold scenario_42, answers_json.
    repeat split; eexists; repeat split.
  - simpl. lia.
  - simpl. lia.
  - lia.
Defined.

(** ** The session *)










(** ** The poll loop *)

Section Loop.

Variable lower_nonascii : str -> nat -> N -> str.
Variable B : Backend.
Variable config : Runtime.

Notation status := (status_of lower_nonascii).
Notation loop := (poll_loop lower_nonascii B config).
Notation route := (route_body lower_nonascii B config).
Notation handle := (handle_default_route lower_nonascii B config).
Notation seen := (terminal_seen lower_nonascii).

Lemma trace_noted (execution_id : json) (last_status : option str) (s : str)
    (w : World) :
  trace (noted execution_id last_status s w) = trace w
  \/ trace (noted execution_id last_status s w)
     = EvLog (LogStatus execution_id s) :: trace w.
Proof.
  unfold noted. destruct last_status as [l |]; [| right; reflexivity].
  destruct (eqb s l); [left | right]; reflexivity.
Qed.

Lemma clock_noted (execution_id : json) (last_status : option str) (s : str)
    (w : World) :
  clock (noted execution_id last_status s w) = clock w.
Proof.
  unfold noted. destruct last_status as [l |]; [| reflexivity].
  destruct (eqb s l); reflexivity.
Qed.

Lemma count_noted (p : event -> bool) (execution_id : json)
    (last_status : option str) (s : str) (w : World) :
  (forall l, p (EvLog l) = false) ->
  count p (noted execution_id last_status s w) = count p w.
Proof.
  intros Hp. unfold count.
  destruct (trace_noted execution_id last_status s w) as [-> | ->];
    [reflexivity |].
  simpl. rewrite Hp. reflexivity.
Qed.

Lemma polls_round (execution_id : json) (last_status : option str) (s : str)
    (c : call) (w : World) :
  polls (noted execution_id last_status s (requested execution_id c w))
  = S (polls w).
Proof. unfold polls. rewrite count_noted; reflexivity. Qed.

Lemma sleeps_round (execution_id : json) (last_status : option str)
    (s : str) (c : call) (w : World) :
  sleeps (noted execution_id last_status s (requested execution_id c w))
  = sleeps w.
Proof. unfold sleeps. rewrite count_noted; reflexivity. Qed.

Lemma observed_noted (execution_id : json) (last_status : option str)
    (s : str) (w : World) :
  observed (trace (noted execution_id last_status s w)) = observed (trace w).
Proof.
  destruct (trace_noted execution_id last_status s w) as [-> | ->];
    reflexivity.
Qed.

Lemma observed_requested (execution_id : json) (c : call) (w : World) :
  observed (trace (requested execution_id c w)) =
  match delivered c with
  | Ok p => p :: observed (trace w)
  | Raise _ => observed (trace w)
  end.
Proof.
  unfold requested, observed. cbn [trace flat_map observed_payload].
  destruct (delivered c); reflexivity.
Qed.

Lemma seen_cons (p : json) (tr : list json) :
  (exists q s, In q (p :: tr) /\ status q = Ok s /\ is_terminal s = true)
  <-> (exists s, status p = Ok s /\ is_terminal s = true)
      \/ (exists q s, In q tr /\ status q = Ok s /\ is_terminal s = true).
Proof.
  split.
  - intros (q & s & [<- | Hq] & Hs & Ht).
    + left. exists s. auto.
    + right. exists q, s. auto.
  - intros [(s & Hs & Ht) | (q & s & Hq & Hs & Ht)].
    + exists p, s. simpl. auto.
    + exists q, s. simpl. auto.
Qed.

(** The loop leaves by [break] exactly when a terminal status shows in
    the trace, provided none did before the loop. *)
Lemma loop_break_iff (fuel : nat) (execution_id : json) (t0 : Z) :
  forall (last_status : option str) (w : World),
    ~ seen (trace w) ->
    fst (loop fuel execution_id t0 last_status w) = Some (Ok Break)
    <-> seen (trace (snd (loop fuel execution_id t0 last_status w))).
Proof.
  induction fuel as [| fuel IH]; intros last_status w Hw.
  - cbn. split; [discriminate | contradiction].
  - rewrite poll_loop_step. cbn zeta.
    set (c := get_status B (polls w) execution_id).
    destruct (delivered c) as [p | e] eqn:Hc.
    + assert (Hseen : forall s,
                seen (trace (noted execution_id last_status s
                               (requested execution_id c w)))
                <-> (exists s', status p = Ok s' /\ is_terminal s' = true)).
      { intros s. unfold terminal_seen.
        rewrite observed_noted, observed_requested, Hc, seen_cons.
        split; [intros [H | H]; [exact H | contradiction] | auto]. }
      destruct (status p) as [s | e] eqn:Hs.
      * destruct (is_terminal s) eqn:Ht.
        -- cbn [fst snd]. rewrite Hseen.
           split; [intros _; exists s; auto | reflexivity].
        -- assert (Hstop : forall o : result loop_exit,
                      o <> Ok Break ->
                      Some o = Some (Ok Break)
                      <-> seen (trace (noted execution_id last_status s
                                         (requested execution_id c w)))).
           { intros o Ho. rewrite Hseen. split; [congruence |].
             intros (s' & [= <-] & Ht'). congruence. }
           destruct (_ >? _); [apply Hstop; discriminate |].
           destruct (_ <? _); [apply Hstop; discriminate |].
           apply IH. cbn [slept trace].
              unfold terminal_seen. cbn [observed flat_map observed_payload].
              cbn [app]. fold (observed (trace (noted execution_id last_status s
                                          (requested execution_id c w)))).
              intros H. apply (Hseen s) in H.
              destruct H as (s' & [= <-] & Ht'). congruence.
      * cbn [fst snd].
        unfold terminal_seen. rewrite observed_requested, Hc, seen_cons.
        split; [discriminate |].
        intros [(s' & Hs' & _) | H]; [congruence | contradiction].
    + cbn [fst snd].
      unfold terminal_seen. rewrite observed_requested, Hc.
      split; [discriminate | contradiction].
Qed.

Lemma is_terminal_spec (s : str) :
  is_terminal s = true
  <-> s = lit "completed" \/ s = lit "failed" \/ s = lit "timeout"
      \/ s = lit "timed_out" \/ s = lit "cancelled".
Proof.
  unfold is_terminal, terminal. cbn [existsb].
  rewrite !orb_true_iff, !eqb_eq. intuition discriminate.
Qed.

Lemma loop_keeps_count (p : event -> bool) (fuel : nat)
    (execution_id : json) (t0 : Z) :
  (forall id c, p (EvStatus id c) = false) ->
  (forall l, p (EvLog l) = false) ->
  (forall d lasted, p (EvSleep d lasted) = false) ->
  forall (last_status : option str) (w : World),
    count p (snd (loop fuel execution_id t0 last_status w)) = count p w.
Proof.
  intros Hstatus Hlog Hsleep.
  induction fuel as [| fuel IH]; intros last_status w; [reflexivity |].
  rewrite poll_loop_step. cbn zeta.
  set (c := get_status B (polls w) execution_id).
  assert (Hreq : count p (requested execution_id c w) = count p w)
    by (unfold count; cbn; rewrite Hstatus; reflexivity).
  destruct (delivered c) as [payload | e]; [| exact Hreq].
  destruct (status payload) as [s | e]; [| exact Hreq].
  assert (Hnoted : count p (noted execution_id last_status s
                              (requested execution_id c w)) = count p w)
    by (rewrite count_noted; assumption).
  destruct (is_terminal s); [exact Hnoted |].
  destruct (_ >? _); [exact Hnoted |].
  destruct (_ <? _); [exact Hnoted |].
  rewrite IH. unfold count. cbn. rewrite Hsleep. exact Hnoted.
Qed.

(** A call makes its result request exactly when a terminal status
    shows in its trace. *)
Lemma handle_fetches_iff (fuel : nat) (prompt : str) (user_id t : Z) :
  fetches (snd (handle fuel prompt user_id (start t))) = 1%nat
  <-> seen (trace (snd (handle fuel prompt user_id (start t)))).
Proof.
  assert (Hnone : forall tr, observed tr = [] -> ~ seen tr)
    by (intros tr Htr (p & s & Hp & _); rewrite Htr in Hp; destruct Hp).
  assert (Hexn : forall e w0,
            fetches (snd (on_exception e w0)) = fetches w0
            /\ observed (trace (snd (on_exception e w0)))
               = observed (trace w0))
    by (intros e w0; rewrite on_exception_run; destruct e; split;
        reflexivity).
  rewrite handle_run, route_body_run. cbn zeta.
  set (request := job_request prompt user_id).
  set (w1 := posted request (post B request) (start t)).
  assert (H1 : fetches w1 = 0%nat /\ observed (trace w1) = [])
    by (split; reflexivity).
  assert (Hearly : forall o : option (result str),
            fetches (snd (o, w1)) = 1%nat <-> seen (trace (snd (o, w1)))).
  { intros o. cbn [snd]. destruct H1 as [-> H1].
    split; [discriminate | intros H; destruct (Hnone _ H1 H)]. }
  assert (Hearly_exn : forall e,
            fetches (snd (on_exception e w1)) = 1%nat
            <-> seen (trace (snd (on_exception e w1)))).
  { intros e. destruct (Hexn e w1) as [Hf Ho]. rewrite Hf.
    destruct H1 as [-> H1]. rewrite H1 in Ho.
    split; [discriminate | intros H; destruct (Hnone _ Ho H)]. }
  destruct (reply_of (post B request)) as [resp | e]; [| apply Hearly_exn].
  destruct (is_2xx (status_code resp));
    [| apply Hearly].
  destruct (py_get _ (lit "execution_id")) as [id | e];
    [| apply Hearly_exn].
  destruct (truthy id); [| apply Hearly].
  set (w2 := logged (LogStarted id) w1).
  assert (H2 : ~ seen (trace w2)) by (apply Hnone; reflexivity).
  pose proof (loop_break_iff fuel id (clock w2) None w2 H2) as Hbreak.
  pose proof (loop_keeps_count is_result fuel id (clock w2)
                (fun _ _ => eq_refl) (fun _ => eq_refl)
                (fun _ _ => eq_refl) None w2) as Hcount.
  change (count is_result w2) with 0%nat in Hcount.
  destruct (loop fuel id (clock w2) None w2) as [[[[| message] | e] |] w3];
    cbn [fst snd] in Hbreak, Hcount.
  + assert (Hseen : seen (trace w3)) by (apply Hbreak; reflexivity).
    set (c' := get_result B id).
    assert (Hf : fetches (fetched id c' w3) = 1%nat)
      by (unfold fetches, count in *; cbn; rewrite Hcount; reflexivity).
    assert (Hs : seen (trace (fetched id c' w3))) by exact Hseen.
    destruct (match delivered c' with
              | Ok result_payload => text_of_result result_payload
              | Raise e => Raise e
              end) as [m | e].
    * cbn [snd]. tauto.
    * destruct (Hexn e (fetched id c' w3)) as [Hf' Ho'].
      rewrite Hf', Hf. unfold terminal_seen. rewrite Ho'. tauto.
  + cbn [snd]. unfold fetches. rewrite Hcount.
    split; [discriminate | intros H; apply Hbreak in H; discriminate].
  + destruct (Hexn e w3) as [Hf' Ho'].
    rewrite Hf'. unfold fetches. rewrite Hcount.
    unfold terminal_seen. rewrite Ho'.
    split; [discriminate | intros H; apply Hbreak in H; discriminate].
  + cbn [snd]. unfold fetches. rewrite Hcount.
    split; [discriminate | intros H; apply Hbreak in H; discriminate].
Qed.

(** *** How long the loop lasts *)

Lemma last_sleep_round (execution_id : json) (last_status : option str)
    (s : str) (c : call) (w : World) :
  last_sleep (trace (noted execution_id last_status s
                       (requested execution_id c w)))
  = last_sleep (trace w).
Proof.
  destruct (trace_noted execution_id last_status s
              (requested execution_id c w)) as [-> | ->]; reflexivity.
Qed.

Lemma last_poll_round (execution_id : json) (last_status : option str)
    (s : str) (c : call) (w : World) :
  last_poll (trace (noted execution_id last_status s
                      (requested execution_id c w)))
  = took c.
Proof.
  destruct (trace_noted execution_id last_status s
              (requested execution_id c w)) as [-> | ->]; reflexivity.
Qed.

Lemma last_sleep_none (tr : list event) :
  filter is_sleep tr = [] -> last_sleep tr = 0.
Proof.
  induction tr as [| ev tr IH]; [reflexivity |].
  destruct ev; cbn; try exact IH. discriminate.
Qed.

(** Each round but the first starts no later than the budget plus the
    sleep before it, so a [break] comes no later than that plus the time
    of the status request that brings it. *)
Lemma loop_exit_time (fuel : nat) (execution_id : json) (t0 : Z) :
  forall (last_status : option str) (w w' : World),
    clock w - t0 <= max_wait config + last_sleep (trace w) ->
    loop fuel execution_id t0 last_status w = (Some (Ok Break), w') ->
    clock w' - t0
    <= max_wait config + last_sleep (trace w') + last_poll (trace w').
Proof.
  induction fuel as [| fuel IH]; intros last_status w w' Hw;
    [discriminate |].
  rewrite poll_loop_step. cbn zeta.
  set (c := get_status B (polls w) execution_id).
  destruct (delivered c) as [p | e]; [| discriminate].
  destruct (status p) as [s | e]; [| discriminate].
  destruct (is_terminal s).
  - intros [= <-].
    rewrite last_sleep_round, last_poll_round, clock_noted.
    cbn [requested clock]. lia.
  - destruct (_ >? _) eqn:Hcheck; [discriminate |].
    destruct (_ <? _); [discriminate |].
    apply IH. cbn [slept clock trace last_sleep].
    rewrite Z.gtb_ltb in Hcheck. apply Z.ltb_ge in Hcheck. lia.
Qed.

Lemma loop_exit_time_uniform (over latency : Z) (fuel : nat)
    (execution_id : json) (t0 : Z) :
  (forall n d, sleep B n d <= d + over) ->
  (forall n id, took (get_status B n id) <= latency) ->
  forall (last_status : option str) (w w' : World),
    clock w - t0 <= max_wait config + poll_interval config + over ->
    loop fuel execution_id t0 last_status w = (Some (Ok Break), w') ->
    clock w' - t0
    <= max_wait config + poll_interval config + over + latency.
Proof.
  intros Hsleep Htook.
  induction fuel as [| fuel IH]; intros last_status w w' Hw;
    [discriminate |].
  rewrite poll_loop_step. cbn zeta.
  set (c := get_status B (polls w) execution_id).
  pose proof (Htook (polls w) execution_id) as Hc. fold c in Hc.
  destruct (delivered c) as [p | e]; [| discriminate].
  destruct (status p) as [s | e]; [| discriminate].
  destruct (is_terminal s).
  - intros [= <-]. rewrite clock_noted. cbn [requested clock]. lia.
  - destruct (_ >? _) eqn:Hcheck; [discriminate |].
    destruct (_ <? _); [discriminate |].
    apply IH. cbn [slept clock].
    rewrite Z.gtb_ltb in Hcheck. apply Z.ltb_ge in Hcheck.
    pose proof (Hsleep
                  (sleeps (noted execution_id last_status s
                             (requested execution_id c w)))
                  (poll_interval config)).
    lia.
Qed.

(** C9, as amended. A loop entered at time [t0] that leaves by [break]
    does so no later than the budget plus the last sleep plus the time
    the last status request took. When a sleep lasts at most [over]
    longer than asked and a status request takes at most [latency], that
    is the budget plus one polling interval plus [over] and [latency]:
    one polling interval past the budget when both are zero. *)
Theorem loop_exit_bound (fuel : nat) (execution_id : json)
    (last_status : option str) (w w' : World) :
  0 <= max_wait config ->
  sleeps w = 0%nat ->
  loop fuel execution_id (clock w) last_status w = (Some (Ok Break), w') ->
  clock w' - clock w
  <= max_wait config + last_sleep (trace w') + last_poll (trace w')
  /\ (forall over latency,
        0 <= poll_interval config + over ->
        (forall n d, sleep B n d <= d + over) ->
        (forall n id, took (get_status B n id) <= latency) ->
        clock w' - clock w
        <= max_wait config + poll_interval config + over + latency).
Proof.
  intros Hbudget Hsleeps Hrun. split.
  - apply (loop_exit_time fuel execution_id (clock w) last_status w w');
      [| exact Hrun].
    rewrite last_sleep_none; [lia |].
    unfold sleeps, count in Hsleeps.
    destruct (filter is_sleep (trace w)); [reflexivity | discriminate].
  - intros over latency Hover Hsleep Htook.
    apply (loop_exit_time_uniform over latency fuel execution_id (clock w)
             Hsleep Htook last_status w w'); [lia | exact Hrun].
Qed.

(** *** The loop ends *)

Section Progress.

Hypothesis interval_positive : 0 < poll_interval config.
Hypothesis sleep_lasts : forall n d, d <= sleep B n d.
Hypothesis requests_take_time :
  forall n execution_id, 0 <= took (get_status B n execution_id).



End Progress.

(** *** Requests that raise *)

Lemma loop_raises (fuel : nat) (execution_id : json) (t0 : Z) :
  forall (last_status : option str) (w : World),
    (forall ev e, In ev (trace w) -> ~ request_raised ev e) ->
    forall ev e,
      In ev (trace (snd (loop fuel execution_id t0 last_status w))) ->
      request_raised ev e ->
      fst (loop fuel execution_id t0 last_status w) = Some (Raise e).
Proof.
  induction fuel as [| fuel IH]; intros last_status w Hclean.
  - intros ev e Hin Hraised. destruct (Hclean ev e Hin Hraised).
  - rewrite poll_loop_step. cbn zeta.
    set (c := get_status B (polls w) execution_id).
    destruct (delivered c) as [p | e0] eqn:Hc.
    + assert (Hclean1 : forall s ev e,
                In ev (trace (noted execution_id last_status s
                                (requested execution_id c w))) ->
                ~ request_raised ev e).
      { intros s ev e Hin.
        assert (Hin' : In ev (trace (requested execution_id c w))
                       \/ ev = EvLog (LogStatus execution_id s)).
        { destruct (trace_noted execution_id last_status s
                      (requested execution_id c w)) as [Ht | Ht];
            rewrite Ht in Hin; [auto | destruct Hin; auto]. }
        destruct Hin' as [[<- | Hin'] | ->].
        - cbn. congruence.
        - apply Hclean, Hin'.
        - cbn. auto. }
      destruct (status p) as [s | e1].
      * destruct (is_terminal s);
          [intros ev e Hin Hraised; destruct (Hclean1 s ev e Hin Hraised) |].
        destruct (_ >? _);
          [intros ev e Hin Hraised; destruct (Hclean1 s ev e Hin Hraised) |].
        destruct (_ <? _);
          [intros ev e Hin Hraised; destruct (Hclean1 s ev e Hin Hraised) |].
        apply IH. intros ev e [<- | Hin]; [cbn; auto |].
        apply (Hclean1 s), Hin.
      * intros ev e [<- | Hin] Hraised; cbn in Hraised.
        -- congruence.
        -- destruct (Hclean ev e Hin Hraised).
    + intros ev e [<- | Hin] Hraised; cbn in Hraised.
      * cbn [fst]. congruence.
      * destruct (Hclean ev e Hin Hraised).
Qed.

Lemma route_raises (fuel : nat) (prompt : str) (user_id t : Z) :
  forall ev e,
    In ev (trace (snd (route fuel prompt user_id (start t)))) ->
    request_raised ev e ->
    fst (route fuel prompt user_id (start t)) = Some (Raise e).
Proof.
  rewrite route_body_run. cbn zeta.
  set (request := job_request prompt user_id).
  set (c := post B request).
  set (w1 := posted request c (start t)).
  destruct (reply_of c) as [resp | e0] eqn:Hc.
  - assert (H1 : forall ev e, In ev (trace w1) -> ~ request_raised ev e).
    { intros ev e [<- | []]. cbn. congruence. }
    assert (Hearly : forall o : option (result str), forall ev e,
              In ev (trace (snd (o, w1))) -> request_raised ev e ->
              fst (o, w1) = Some (Raise e))
      by (intros o ev e Hin Hraised; destruct (H1 ev e Hin Hraised)).
    destruct (is_2xx (status_code resp)); [| apply Hearly].
    destruct (py_get _ (lit "execution_id")) as [id | e1];
      [| apply Hearly].
    destruct (truthy id); [| apply Hearly].
    set (w2 := logged (LogStarted id) w1).
    assert (H2 : forall ev e, In ev (trace w2) -> ~ request_raised ev e).
    { intros ev e [<- | Hin]; [cbn; auto | apply H1, Hin]. }
    pose proof (loop_raises fuel id (clock w2) None w2 H2) as Hloop.
    destruct (loop fuel id (clock w2) None w2) as [[[[| message] | e1] |] w3];
      cbn [fst snd] in Hloop |- *.
    + intros ev e [<- | Hin] Hraised.
      * cbn in Hraised. rewrite Hraised. reflexivity.
      * discriminate (Hloop ev e Hin Hraised).
    + intros ev e Hin Hraised. discriminate (Hloop ev e Hin Hraised).
    + intros ev e Hin Hraised.
      pose proof (Hloop ev e Hin Hraised) as [= ->]. reflexivity.
    + intros ev e Hin Hraised. discriminate (Hloop ev e Hin Hraised).
  - intros ev e [<- | []] Hraised. cbn in Hraised. cbn [fst]. congruence.
Qed.

Lemma handle_raises (fuel : nat) (prompt : str) (user_id t : Z) :
  forall ev e,
    In ev (trace (snd (handle fuel prompt user_id (start t)))) ->
    request_raised ev e ->
    fst (handle fuel prompt user_id (start t)) = Some (Ok (message_of e)).
Proof.
  intros ev e. rewrite handle_run.
  pose proof (route_raises fuel prompt user_id t ev e) as Hroute.
  destruct (route fuel prompt user_id (start t)) as [[[m | e0] |] w'];
    cbn [fst snd] in Hroute |- *.
  - intros Hin Hraised. discriminate (Hroute Hin Hraised).
  - rewrite on_exception_run. cbn [fst snd]. intros Hin Hraised.
    assert (Hin' : In ev (trace w')).
    { destruct e0; cbn in Hin; try exact Hin.
      destruct Hin as [<- | Hin]; [destruct Hraised | exact Hin]. }
    specialize (Hroute Hin' Hraised). congruence.
  - intros Hin Hraised. discriminate (Hroute Hin Hraised).
Qed.

Lemma raise_for_status_error (r : Response) :
  400 <= status_code r < 600 ->
  raise_for_status r = Raise (RequestException (http_error_text r)).
Proof.
  intros Hcode. unfold raise_for_status, http_error_text.
  destruct (status_code r <? 500) eqn:H5.
  - apply Z.ltb_lt in H5.
    replace (400 <=? status_code r) with true
      by (symmetry; apply Z.leb_le; lia).
    reflexivity.
  - apply Z.ltb_ge in H5. rewrite andb_false_r.
    replace (500 <=? status_code r) with true
      by (symmetry; apply Z.leb_le; lia).
    replace (status_code r <? 600) with true
      by (symmetry; apply Z.ltb_lt; lia).
    reflexivity.
Qed.

(** C10, as amended. When a status or result request of a call is
    answered with a code from 400 to 599, the call returns the
    network-error message with the text of the HTTP error, which is not
    the backend-error message of the submission. *)
Theorem http_error_is_network_error (fuel : nat) (prompt : str)
    (user_id t : Z) (r : Response) :
  http_error_seen (trace (snd (handle fuel prompt user_id (start t)))) r ->
  fst (handle fuel prompt user_id (start t))
  = Some (Ok (network_err_msg (http_error_text r)))
  /\ (forall code shown,
        network_err_msg (http_error_text r) <> UX.backend_err code shown).
Proof.
  intros [(ev & Hin & Hr) Hcode]. split.
  - apply (handle_raises fuel prompt user_id t ev
             (RequestException (http_error_text r)) Hin).
    destruct ev as [| id c | id c | |]; cbn in Hr |- *;
      try contradiction;
      unfold delivered; rewrite Hr, (raise_for_status_error r Hcode);
      reflexivity.
  - intros code shown H. unfold network_err_msg, UX.backend_err in H.
    cbn in H. discriminate H.
Qed.

(** *** A call always ends in a text *)





(** *** The budget *)

Lemma loop_times_out (execution_id : json) (t0 : Z) (s : str) (k : nat) :
  0 <= poll_interval config ->
  forall (i fuel : nat) (last_status : option str) (w : World),
    polls w = i ->
    sleeps w = i ->
    clock w + took (get_status B i execution_id) - t0
    = elapsed B config execution_id i ->
    (forall j, (i <= j < i + k)%nat ->
       exists s',
         status_at lower_nonascii B execution_id j = Ok s'
         /\ is_terminal s' = false
         /\ elapsed B config execution_id j <= max_wait config) ->
    status_at lower_nonascii B execution_id (i + k) = Ok s ->
    is_terminal s = false ->
    max_wait config < elapsed B config execution_id (i + k) ->
    (k < fuel)%nat ->
    exists w',
      loop fuel execution_id t0 last_status w
      = (Some (Ok (Return (wait_timeout_msg s))), w')
      /\ polls w' = S (i + k)
      /\ count is_result w' = count is_result w.
Proof.
  intros Hinterval.
  induction k as [| k IH];
    intros i fuel last_status w Hpolls Hsleeps Hclock Hbefore Hs Ht Hover
      Hfuel;
    (destruct fuel as [| fuel]; [lia |]);
    rewrite poll_loop_step; cbn zeta; rewrite Hpolls;
    set (c := get_status B i execution_id) in *.
  - rewrite Nat.add_0_r in Hs, Hover |- *.
    unfold status_at in Hs. fold c in Hs.
    destruct (delivered c) as [p | e]; [| discriminate].
    rewrite Hs, Ht.
    rewrite gtb_true
      by (rewrite clock_noted; cbn [requested clock]; lia).
    eexists. split; [reflexivity |].
    rewrite polls_round, Hpolls. split; [reflexivity |].
    rewrite count_noted; reflexivity.
  - destruct (Hbefore i ltac:(lia)) as (s' & Hs' & Ht' & Hwithin).
    unfold status_at in Hs'. fold c in Hs'.
    destruct (delivered c) as [p | e]; [| discriminate].
    rewrite Hs', Ht'.
    rewrite gtb_false
      by (rewrite clock_noted; cbn [requested clock]; lia).
    rewrite (ltb_false _ _ Hinterval).
    set (w2 := noted execution_id last_status s' (requested execution_id c w)).
    assert (Hpolls2 : polls (slept B (poll_interval config) w2) = S i)
      by (unfold w2; change (polls (slept _ _ ?x)) with (polls x);
          rewrite polls_round, Hpolls; reflexivity).
    assert (Hsleeps2 : sleeps w2 = i)
      by (unfold w2; rewrite sleeps_round; exact Hsleeps).
    destruct (IH (S i) fuel (Some s') (slept B (poll_interval config) w2))
      as (w' & Hrun & Hpolls' & Hcount).
    + exact Hpolls2.
    + change (sleeps (slept _ _ ?x)) with (S (sleeps x)).
      rewrite Hsleeps2. reflexivity.
    + cbn [slept clock elapsed]. rewrite Hsleeps2.
      unfold w2. rewrite clock_noted. cbn [requested clock].
      fold c. lia.
    + intros j Hj. apply Hbefore. lia.
    + replace (S i + k)%nat with (i + S k)%nat by lia. exact Hs.
    + exact Ht.
    + replace (S i + k)%nat with (i + S k)%nat by lia. exact Hover.
    + lia.
    + exists w'. split; [exact Hrun |].
      split; [rewrite Hpolls'; f_equal; lia |].
      rewrite Hcount. unfold w2.
      change (count is_result (slept _ _ ?x)) with (count is_result x).
      rewrite count_noted; reflexivity.
Qed.

(** The loop leaves by [break] in the round that reads a terminal
    status, when the rounds before it read statuses that are not
    terminal, within the budget. *)
Lemma loop_breaks (execution_id : json) (t0 : Z) (s : str) (k : nat) :
  0 <= poll_interval config ->
  forall (i fuel : nat) (last_status : option str) (w : World),
    polls w = i ->
    sleeps w = i ->
    clock w + took (get_status B i execution_id) - t0
    = elapsed B config execution_id i ->
    (forall j, (i <= j < i + k)%nat ->
       exists s',
         status_at lower_nonascii B execution_id j = Ok s'
         /\ is_terminal s' = false
         /\ elapsed B config execution_id j <= max_wait config) ->
    status_at lower_nonascii B execution_id (i + k) = Ok s ->
    is_terminal s = true ->
    (k < fuel)%nat ->
    exists w',
      loop fuel execution_id t0 last_status w = (Some (Ok Break), w')
      /\ polls w' = S (i + k)
      /\ count is_result w' = count is_result w.
Proof.
  intros Hinterval.
  induction k as [| k IH];
    intros i fuel last_status w Hpolls Hsleeps Hclock Hbefore Hs Ht Hfuel;
    (destruct fuel as [| fuel]; [lia |]);
    rewrite poll_loop_step; cbn zeta; rewrite Hpolls;
    set (c := get_status B i execution_id) in *.
  - rewrite Nat.add_0_r in Hs |- *.
    unfold status_at in Hs. fold c in Hs.
    destruct (delivered c) as [p | e]; [| discriminate].
    rewrite Hs, Ht.
    eexists. split; [reflexivity |].
    rewrite polls_round, Hpolls. split; [reflexivity |].
    rewrite count_noted; reflexivity.
  - destruct (Hbefore i ltac:(lia)) as (s' & Hs' & Ht' & Hwithin).
    unfold status_at in Hs'. fold c in Hs'.
    destruct (delivered c) as [p | e]; [| discriminate].
    rewrite Hs', Ht'.
    rewrite gtb_false
      by (rewrite clock_noted; cbn [requested clock]; lia).
    rewrite (ltb_false _ _ Hinterval).
    set (w2 := noted execution_id last_status s' (requested execution_id c w)).
    assert (Hpolls2 : polls (slept B (poll_interval config) w2) = S i)
      by (unfold w2; change (polls (slept _ _ ?x)) with (polls x);
          rewrite polls_round, Hpolls; reflexivity).
    assert (Hsleeps2 : sleeps w2 = i)
      by (unfold w2; rewrite sleeps_round; exact Hsleeps).
    destruct (IH (S i) fuel (Some s') (slept B (poll_interval config) w2))
      as (w' & Hrun & Hpolls' & Hcount).
    + exact Hpolls2.
    + change (sleeps (slept _ _ ?x)) with (S (sleeps x)).
      rewrite Hsleeps2. reflexivity.
    + cbn [slept clock elapsed]. rewrite Hsleeps2.
      unfold w2. rewrite clock_noted. cbn [requested clock].
      fold c. lia.
    + intros j Hj. apply Hbefore. lia.
    + replace (S i + k)%nat with (i + S k)%nat by lia. exact Hs.
    + exact Ht.
    + lia.
    + exists w'. split; [exact Hrun |].
      split; [rewrite Hpolls'; f_equal; lia |].
      rewrite Hcount. unfold w2.
      change (count is_result (slept _ _ ?x)) with (count is_result x).
      rewrite count_noted; reflexivity.
Qed.

Lemma on_exception_counts (p : event -> bool) (e : exn) (w : World) :
  (forall l, p (EvLog l) = false) ->
  count p (snd (on_exception e w)) = count p w.
Proof.
  intros Hlog. rewrite on_exception_run. destruct e; try reflexivity.
  unfold count. cbn. rewrite Hlog. reflexivity.
Qed.

(** C6. The statuses that end the loop are the five, compared after
    [lower]. From a world in which no terminal status was seen, the loop
    leaves by [break] exactly when the trace shows a status payload whose
    status, lowered, is one of the five; and a call makes its result
    request exactly in that case. On the schedule of the backend: after
    a submission that gave an execution identifier, when the rounds
    before round [n] each read a status that is not terminal, within the
    budget, then if round [n] reads a terminal status the loop leaves by
    [break] in that round and the call makes [n + 1] status requests and
    then its one result request, for that identifier; and if round [n]
    reads a status that is not terminal, past the budget, the call makes
    [n + 1] status requests and no result request. *)
Theorem terminal_exit_iff (fuel : nat) (execution_id : json) (t0 : Z)
    (last_status : option str) (w : World) (prompt : str) (user_id t : Z) :
  (observed (trace w) = [] ->
   fst (loop fuel execution_id t0 last_status w) = Some (Ok Break)
   <-> seen (trace (snd (loop fuel execution_id t0 last_status w))))
  /\ (fetches (snd (handle fuel prompt user_id (start t))) = 1%nat
      <-> seen (trace (snd (handle fuel prompt user_id (start t)))))
  /\ (forall s,
        is_terminal s = true
        <-> s = lit "completed" \/ s = lit "failed" \/ s = lit "timeout"
            \/ s = lit "timed_out" \/ s = lit "cancelled")
  /\ (forall raw,
        status (JObj [(lit "status", JStr raw)])
        = Ok (lower lower_nonascii raw))
  /\ (forall n s,
        0 <= poll_interval config ->
        polls w = 0%nat -> sleeps w = 0%nat -> clock w = t0 ->
        (forall j, (j < n)%nat ->
           exists s',
             status_at lower_nonascii B execution_id j = Ok s'
             /\ is_terminal s' = false
             /\ elapsed B config execution_id j <= max_wait config) ->
        status_at lower_nonascii B execution_id n = Ok s ->
        (n < fuel)%nat ->
        (is_terminal s = true ->
         fst (loop fuel execution_id t0 last_status w) = Some (Ok Break)
         /\ polls (snd (loop fuel execution_id t0 last_status w)) = S n)
        /\ (is_terminal s = false ->
            max_wait config < elapsed B config execution_id n ->
            fst (loop fuel execution_id t0 last_status w)
            = Some (Ok (Return (wait_timeout_msg s)))
            /\ polls (snd (loop fuel execution_id t0 last_status w)) = S n))
  /\ (forall r id n s,
        reply_of (post B (job_request prompt user_id)) = Answers r ->
        is_2xx (status_code r) = true ->
        py_get (match parsed r with Json j => j | _ => JObj [] end)
          (lit "execution_id") = Ok id ->
        truthy id = true ->
        0 <= poll_interval config ->
        (forall j, (j < n)%nat ->
           exists s',
             status_at lower_nonascii B id j = Ok s'
             /\ is_terminal s' = false
             /\ elapsed B config id j <= max_wait config) ->
        status_at lower_nonascii B id n = Ok s ->
        (n < fuel)%nat ->
        let w' := snd (handle fuel prompt user_id (start t)) in
        (is_terminal s = true ->
         polls w' = S n /\ fetches w' = 1%nat
         /\ In (EvResult id (get_result B id)) (trace w')
         /\ seen (trace w'))
        /\ (is_terminal s = false ->
            max_wait config < elapsed B config id n ->
            polls w' = S n /\ fetches w' = 0%nat /\ ~ seen (trace w'))).
Proof.
  split; [| split; [| split; [| split; [| split]]]].
  - intros Hw. apply loop_break_iff.
    unfold terminal_seen. rewrite Hw. intros (p & s & [] & _).
  - apply handle_fetches_iff.
  - apply is_terminal_spec.
  - intros raw. unfold status_of, py_get, py_or. cbn [dict_get].
    rewrite eqb_refl. destruct raw; reflexivity.
  - intros n s Hinterval Hpolls Hsleeps Hclock Hbefore Hs Hfuel. split.
    + intros Ht.
      destruct (loop_breaks execution_id t0 s n Hinterval 0 fuel last_status
                  w Hpolls Hsleeps)
        as (w' & Hrun & Hpolls' & _); try assumption.
      * cbn [elapsed]. lia.
      * intros j Hj. apply Hbefore. lia.
      * rewrite Hrun. split; [reflexivity | exact Hpolls'].
    + intros Ht Hover.
      destruct (loop_times_out execution_id t0 s n Hinterval 0 fuel
                  last_status w Hpolls Hsleeps)
        as (w' & Hrun & Hpolls' & _); try assumption.
      * cbn [elapsed]. lia.
      * intros j Hj. apply Hbefore. lia.
      * rewrite Hrun. split; [reflexivity | exact Hpolls'].
  - intros r id n s Hpost Hcode Hid Htruthy Hinterval Hbefore Hs Hfuel.
    cbn zeta.
    pose proof (handle_fetches_iff fuel prompt user_id t) as Hiff.
    rewrite handle_run, route_body_run in Hiff |- *. cbn zeta in Hiff |- *.
    rewrite Hpost, Hcode, Hid, Htruthy in Hiff |- *.
    set (w2 := logged _ _) in Hiff |- *.
    split.
    + intros Ht.
      destruct (loop_breaks id (clock w2) s n Hinterval 0 fuel None w2)
        as (w' & Hrun & Hpolls & Hcount); try assumption; try reflexivity.
      * cbn [elapsed]. lia.
      * intros j Hj. apply Hbefore. lia.
      * rewrite Hrun in Hiff |- *.
        set (c' := get_result B id) in Hiff |- *.
        assert (Hp : polls (fetched id c' w') = S n) by exact Hpolls.
        assert (Hf : fetches (fetched id c' w') = 1%nat)
          by (unfold fetches, count in *; cbn; rewrite Hcount; reflexivity).
        assert (Hin : In (EvResult id c') (trace (fetched id c' w')))
          by (left; reflexivity).
        destruct (match delivered c' with
                  | Ok result_payload => text_of_result result_payload
                  | Raise e => Raise e
                  end) as [m | e]; cbn [snd] in Hiff |- *.
        -- split; [exact Hp |]. split; [exact Hf |].
           split; [exact Hin | apply Hiff, Hf].
        -- assert (Hf' : fetches (snd (on_exception e (fetched id c' w')))
                         = 1%nat)
             by (unfold fetches; rewrite on_exception_counts;
                 [exact Hf | reflexivity]).
           split; [unfold polls; rewrite on_exception_counts;
                   [exact Hp | reflexivity] |].
           split; [exact Hf' |].
           split; [| apply Hiff, Hf'].
           rewrite on_exception_run. cbn [snd].
           destruct e; try exact Hin. right. exact Hin.
    + intros Ht Hover.
      destruct (loop_times_out id (clock w2) s n Hinterval 0 fuel None w2)
        as (w' & Hrun & Hpolls & Hcount); try assumption; try reflexivity.
      * cbn [elapsed]. lia.
      * intros j Hj. apply Hbefore. lia.
      * rewrite Hrun in Hiff |- *. cbn [snd] in Hiff |- *.
        assert (Hf : fetches w' = 0%nat) by exact Hcount.
        split; [exact Hpolls |]. split; [exact Hf |].
        intros Hseen. apply Hiff in Hseen. congruence.
Qed.

(** C5, as amended. After a submission that gave an execution
    identifier, with a polling interval that is not negative, when the
    rounds before round [n] each read a status that is not terminal
    within the budget, and round [n] reads a status [s]
    that is not terminal with more than the budget elapsed since the
    loop was entered, the call returns the time-out message, which names
    [s], the status read last, lowered, or [unknown] when that status is
    empty, whatever was read before. The budget of [RUNTIME] is 120 s. *)
Theorem wait_timeout_names_latest_status (fuel : nat) (prompt : str)
    (user_id t : Z) (r : Response) (execution_id : json) (n : nat)
    (s : str) :
  reply_of (post B (job_request prompt user_id)) = Answers r ->
  is_2xx (status_code r) = true ->
  py_get (match parsed r with Json j => j | _ => JObj [] end)
    (lit "execution_id") = Ok execution_id ->
  truthy execution_id = true ->
  0 <= poll_interval config ->
  (forall j, (j < n)%nat ->
     exists s',
       status_at lower_nonascii B execution_id j = Ok s'
       /\ is_terminal s' = false
       /\ elapsed B config execution_id j <= max_wait config) ->
  status_at lower_nonascii B execution_id n = Ok s ->
  is_terminal s = false ->
  max_wait config < elapsed B config execution_id n ->
  (n < fuel)%nat ->
  exists w',
    handle fuel prompt user_id (start t)
    = (Some (Ok (wait_timeout_msg s)), w')
    /\ names_status (wait_timeout_msg s)
         (if nonempty s then s else lit "unknown")
    /\ polls w' = S n /\ fetches w' = 0%nat
    /\ max_wait RUNTIME = 120 * 1000.
Proof.
  intros Hpost Hcode Hid Htruthy Hinterval Hbefore Hs Ht Hover Hfuel.
  rewrite handle_run, route_body_run. cbn zeta.
  rewrite Hpost, Hcode, Hid, Htruthy.
  set (w2 := logged _ _).
  destruct (loop_times_out execution_id (clock w2) s n Hinterval
              0 fuel None w2)
    as (w' & Hrun & Hpolls & Hcount); try assumption; try reflexivity.
  - cbn [elapsed]. lia.
  - intros j Hj. apply Hbefore. lia.
  - rewrite Hrun. exists w'. split; [reflexivity |].
    split; [reflexivity |].
    split; [exact Hpolls |].
    split; [exact Hcount | reflexivity].
Qed.

End Loop.

(** ** The examples *)

Import Examples.

(** C5, as stated, fails: with the settings of [RUNTIME], after 121
    rounds that read [running], a round that reads no status past the
    budget gives a message that names [unknown], though a status that is
    not empty was observed, and names neither that status nor the empty
    one. *)
Lemma empty_status_reads_unknown :
  let run :=
    handle_default_route keep_nonascii backend_stalls RUNTIME 200
      (lit "hi") 7 (start 0) in
  exists message,
    fst run = Some (Ok message)
    /\ polls (snd run) = 122%nat
    /\ status_at keep_nonascii backend_stalls abc 0 = Ok (lit "running")
    /\ status_at keep_nonascii backend_stalls abc 121 = Ok []
    /\ names_status message (lit "unknown")
    /\ ~ names_status message (lit "running")
    /\ ~ names_status message [].
Proof.
  cbn zeta. eexists. split; [vm_compute; reflexivity |].
  split; [vm_compute; reflexivity |].
  split; [vm_compute; reflexivity |].
  split; [vm_compute; reflexivity |].
  split; [vm_compute; reflexivity |].
  split; vm_compute; discriminate.
Qed.

Lemma wait_timeout_after_three_rounds :
  exists w',
    handle_default_route keep_nonascii backend_stalls quick 4 (lit "hi") 7
      (start 0)
    = (Some (Ok (wait_timeout_msg (lit "running"))), w')
    /\ names_status (wait_timeout_msg (lit "running")) (lit "running")
    /\ polls w' = 4%nat /\ fetches w' = 0%nat
    /\ max_wait RUNTIME = 120 * 1000.
Proof.
  apply (wait_timeout_names_latest_status keep_nonascii backend_stalls quick
           4 (lit "hi") 7 0 _ abc 3 (lit "running") eq_refl eq_refl
           eq_refl eq_refl).
  - cbn. lia.
  - intros j Hj. exists (lit "running").
    destruct j as [| [| [| j]]]; try lia;
      (split; [reflexivity | split; [reflexivity | vm_compute; discriminate]]).
  - reflexivity.
  - reflexivity.
  - vm_compute. reflexivity.
  - lia.
Defined.

Lemma terminal_exit_on_a_capital_status :
  let run :=
    poll_loop keep_nonascii backend_capital RUNTIME 2 abc 0 None (start 0) in
  let w' :=
    snd (handle_default_route keep_nonascii backend_capital RUNTIME 2
           (lit "hi") 7 (start 0)) in
  (fst run = Some (Ok Break)
   <-> terminal_seen keep_nonascii (trace (snd run)))
  /\ delivered (get_status backend_capital 1 abc)
     = Ok (JObj [(lit "status", JStr (lit "COMPLETED"))])
  /\ fst run = Some (Ok Break)
  /\ polls (snd run) = 2%nat
  /\ polls w' = 2%nat
  /\ fetches w' = 1%nat
  /\ In (EvResult abc (get_result backend_capital abc)) (trace w')
  /\ terminal_seen keep_nonascii (trace w').
Proof.
  cbn zeta.
  destruct (terminal_exit_iff keep_nonascii backend_capital RUNTIME 2 abc 0
              None (start 0) (lit "hi") 7 0)
    as (Hiff & _ & _ & _ & Hloop & Hcall).
  assert (Hbefore : forall j, (j < 1)%nat ->
            exists s',
              status_at keep_nonascii backend_capital abc j = Ok s'
              /\ is_terminal s' = false
              /\ elapsed backend_capital RUNTIME abc j <= max_wait RUNTIME).
  { intros j Hj. exists (lit "running").
    destruct j as [| j]; [| lia].
    split; [reflexivity | split; [reflexivity | vm_compute; discriminate]]. }
  split; [apply Hiff; reflexivity |].
  split; [reflexivity |].
  destruct (Hloop 1%nat (lit "completed")) as [Hbreak _];
    [cbn; lia | reflexivity | reflexivity | reflexivity | exact Hbefore
    | reflexivity | lia |].
  destruct (Hcall _ abc 1%nat (lit "completed") eq_refl eq_refl eq_refl
              eq_refl) as [Hfetch _];
    [cbn; lia | exact Hbefore | reflexivity | lia |].
  destruct (Hbreak eq_refl) as [Hexit Hpolls].
  destruct (Hfetch eq_refl) as (Hpolls' & Hfetches & Hin & Hseen).
  split; [exact Hexit |].
  split; [exact Hpolls |].
  split; [exact Hpolls' |].
  split; [exact Hfetches |].
  split; [exact Hin | exact Hseen].
Defined.



(** C9, as stated, fails: with the settings of [RUNTIME], 121 rounds one
    second apart that read [running], then a status request that takes
    five seconds and reads [completed]: the loop leaves by [break] 126 s
    after it was entered, five seconds later than the budget plus one
    polling interval. *)
Lemma slow_last_request_exceeds_bound :
  let run :=
    poll_loop keep_nonascii backend_slow_last RUNTIME 200 abc 0 None
      (start 0) in
  fst run = Some (Ok Break)
  /\ clock (snd run) - 0 = 126000
  /\ max_wait RUNTIME + poll_interval RUNTIME = 121000
  /\ ~ clock (snd run) - 0 <= max_wait RUNTIME + poll_interval RUNTIME.
Proof.
  cbn zeta. split; [vm_compute; reflexivity |].
  split; [vm_compute; reflexivity |].
  split; [reflexivity |].
  vm_compute. intros H. apply H. reflexivity.
Qed.

Lemma exit_bound_of_the_scenario :
  let w' :=
    snd (poll_loop keep_nonascii backend_42 RUNTIME 2 abc 0 None (start 0)) in
  clock w' - 0 <= max_wait RUNTIME + last_sleep (trace w') + last_poll (trace w')
  /\ clock w' - 0 <= max_wait RUNTIME + poll_interval RUNTIME + 0 + 5.
Proof.
  intros w'.
  destruct (loop_exit_bound keep_nonascii backend_42 RUNTIME 2 abc None
              (start 0) w') as [Htrace Huniform].
  - cbn. lia.
  - reflexivity.
  - vm_compute. reflexivity.
  - split; [exact Htrace |].
    apply (Huniform 0 5).
    + cbn. lia.
    + intros n d. cbn. lia.
    + intros [| n] id; cbn; lia.
Defined.

(** C10, as stated, fails: a status request answered with the code 300
    and a status document is not raised as an error; the call goes on and
    returns the text of the result. *)
Lemma status_300_is_no_error :
  let run :=
    handle_default_route keep_nonascii backend_300 RUNTIME 1 (lit "hi") 7
      (start 0) in
  (exists r,
      reply_of (get_status backend_300 0 abc) = Answers r
      /\ status_code r = 300
      /\ is_2xx (status_code r) = false)
  /\ fst run = Some (Ok (lit "42"))
  /\ (forall detail, fst run <> Some (Ok (network_err_msg detail))).
Proof.
  cbn zeta. split; [eexists; repeat split |].
  split; [vm_compute; reflexivity |].
  intros detail H.
  assert (H42 : fst (handle_default_route keep_nonascii backend_300 RUNTIME 1
                       (lit "hi") 7 (start 0)) = Some (Ok (lit "42")))
    by (vm_compute; reflexivity).
  rewrite H42 in H. discriminate H.
Qed.

Lemma status_404_is_network_error :
  fst (handle_default_route keep_nonascii backend_404 RUNTIME 1 (lit "hi") 7
         (start 0))
  = Some (Ok (network_err_msg
                (lit "404 Client Error: Not Found for url: " ++ status_url))).
Proof.
  apply (http_error_is_network_error keep_nonascii backend_404 RUNTIME 1
           (lit "hi") 7 0 not_found).
  split; [| cbn; lia].
  exists (EvStatus abc {| took := 5; reply_of := Answers not_found |}).
  split; [vm_compute; left; reflexivity | reflexivity].
Defined.

(** ** The extractor and the object store *)

Lemma dict_get_set (d : dict) (k : str) (v : json) :
  dict_get (Store.dict_set d k v) k = v.
Proof.
  induction d as [| [k' x] d IH]; cbn.
  - rewrite eqb_refl. reflexivity.
  - destruct (eqb k' k) eqn:E; cbn; rewrite E; [reflexivity | exact IH].
Qed.

(** A write through a reference shows in the store. *)
Lemma store_shows (d : dict) (k : str) (v : json) :
  Store.deref (snd (Store.store [k] v (JObj d))) [k] = v.
Proof. cbn. apply dict_get_set. Qed.

Lemma deref_snoc (r : Store.ref) (k : str) :
  forall o,
    Store.deref o (r ++ [k]) =
    match Store.deref o r with
    | JObj d => dict_get d k
    | _ => JNull
    end.
Proof.
  induction r as [| k0 r IH]; intros o; cbn.
  - destruct o; reflexivity.
  - destruct o; try reflexivity. apply IH.
Qed.

Lemma probe_at_run (fr : Store.ref) (d : dict) (o : json)
    (keys : list str) :
  Store.deref o fr = JObj d ->
  Store.probe_at fr keys o = (Ok (probe d keys), o).
Proof.
  intros Hfr. induction keys as [| k keys IH]; [reflexivity |].
  cbn [Store.probe_at probe]. unfold Store.bind at 1, Store.get.
  rewrite Hfr. unfold Store.bind at 1, Store.load.
  rewrite deref_snoc, Hfr.
  destruct (dict_get d k); try exact IH.
  destruct (nonempty (strip s)); [reflexivity | exact IH].
Qed.

(** C8. Run on the payload as it sits in the store, the extractor
    returns what the function of the payload's value returns and leaves
    the store as it was; so a second call returns the same as the
    first. *)
Theorem extractor_is_pure (o : json) (payload : Store.ref) :
  Store.extract_at payload o
  = (_extract_final_text_from_payload (Store.deref o payload), o)
  /\ snd (Store.extract_at payload o) = o
  /\ fst (Store.extract_at payload (snd (Store.extract_at payload o)))
     = fst (Store.extract_at payload o).
Proof.
  assert (Hrun : Store.extract_at payload o
                 = (_extract_final_text_from_payload (Store.deref o payload),
                    o)).
  { unfold Store.extract_at, _extract_final_text_from_payload, py_get.
    unfold Store.bind at 1, Store.get.
    destruct (Store.deref o payload) as [| b | z | f | s | items | d] eqn:Hp;
      try reflexivity.
    unfold Store.bind at 1, Store.load. rewrite deref_snoc, Hp.
    destruct (dict_get d (lit "final_result"))
      as [| b | z | f | s | items | fr] eqn:Hfr; try reflexivity.
    unfold Store.bind at 1.
    rewrite (probe_at_run (payload ++ [lit "final_result"]) fr o)
      by (rewrite deref_snoc, Hp; exact Hfr).
    destruct (probe fr candidate_keys); [reflexivity |].
    unfold Store.bind, Store.load, Store.ret.
    rewrite deref_snoc, Hp, Hfr. reflexivity. }
  rewrite Hrun. cbn [fst snd]. rewrite Hrun. auto.
Qed.

(** * Further properties of the code *)

(** ** Runs of the loop and of a call, case by case *)

Section Cases.

Variable lower_nonascii : str -> nat -> N -> str.
Variable B : Backend.
Variable config : Runtime.

Notation status := (status_of lower_nonascii).
Notation loop := (poll_loop lower_nonascii B config).
Notation handle := (handle_default_route lower_nonascii B config).

(** An invariant [I] of the rounds gives [Q] of the way the loop is
    left. *)
Lemma loop_cases (I : option str -> World -> Prop)
    (Q : option (result loop_exit) -> World -> Prop)
    (execution_id : json) (t0 : Z) :
  (forall last w, I last w -> Q None w) ->
  (forall last w e,
      I last w ->
      delivered (get_status B (polls w) execution_id) = Raise e ->
      Q (Some (Raise e))
        (requested execution_id (get_status B (polls w) execution_id) w)) ->
  (forall last w p e,
      I last w ->
      delivered (get_status B (polls w) execution_id) = Ok p ->
      status p = Raise e ->
      Q (Some (Raise e))
        (requested execution_id (get_status B (polls w) execution_id) w)) ->
  (forall last w p s,
      I last w ->
      delivered (get_status B (polls w) execution_id) = Ok p ->
      status p = Ok s ->
      let w2 := noted execution_id last s
                  (requested execution_id
                     (get_status B (polls w) execution_id) w) in
      (is_terminal s = true -> Q (Some (Ok Break)) w2)
      /\ (is_terminal s = false -> max_wait config < clock w2 - t0 ->
          Q (Some (Ok (Return (wait_timeout_msg s)))) w2)
      /\ (is_terminal s = false -> clock w2 - t0 <= max_wait config ->
          poll_interval config < 0 -> Q (Some (Raise sleep_error)) w2)
      /\ (is_terminal s = false -> clock w2 - t0 <= max_wait config ->
          0 <= poll_interval config ->
          I (Some s) (slept B (poll_interval config) w2))) ->
  forall fuel last w,
    I last w ->
    Q (fst (loop fuel execution_id t0 last w))
      (snd (loop fuel execution_id t0 last w)).
Proof.
  intros Hfuel Hfail Hstatus Hround.
  induction fuel as [| fuel IH]; intros last w HI.
  - apply (Hfuel last w HI).
  - rewrite poll_loop_step. cbn zeta.
    destruct (delivered (get_status B (polls w) execution_id))
      as [p | e] eqn:Hc; [| apply (Hfail last w e HI Hc)].
    destruct (status p) as [s | e] eqn:Hs;
      [| apply (Hstatus last w p e HI Hc Hs)].
    destruct (Hround last w p s HI Hc Hs) as (Hbreak & Hout & Hneg & Hnext).
    destruct (is_terminal s); [apply Hbreak; reflexivity |].
    destruct (_ >? _) eqn:Hcheck.
    + apply Hout; [reflexivity |].
      rewrite Z.gtb_ltb in Hcheck. apply Z.ltb_lt in Hcheck. exact Hcheck.
    + rewrite Z.gtb_ltb in Hcheck. apply Z.ltb_ge in Hcheck.
      destruct (_ <? _) eqn:Hneg'.
      * apply Hneg; [reflexivity | exact Hcheck |].
        apply Z.ltb_lt in Hneg'. exact Hneg'.
      * apply IH, Hnext; [reflexivity | exact Hcheck |].
        apply Z.ltb_ge in Hneg'. exact Hneg'.
Qed.

(** A call, from the submission to the text returned. *)
Lemma handle_default_route_run (fuel : nat) (prompt : str) (user_id : Z)
    (w : World) :
  handle fuel prompt user_id w =
  let request := job_request prompt user_id in
  let c := post B request in
  let w1 := posted request c w in
  match reply_of c with
  | Fails e => excepted e w1
  | Answers resp =>
      if is_2xx (status_code resp) then
        let j := match parsed resp with
                 | Json j => j
                 | _ => JObj []
                 end in
        match py_get j (lit "execution_id") with
        | Raise e => excepted e w1
        | Ok execution_id =>
            if truthy execution_id then
              let w2 := logged (LogStarted execution_id) w1 in
              match loop fuel execution_id (clock w2) None w2 with
              | (Some (Ok Break), w3) =>
                  let c' := get_result B execution_id in
                  match delivered c' with
                  | Raise e => excepted e (fetched execution_id c' w3)
                  | Ok result_payload =>
                      match text_of_result result_payload with
                      | Raise e => excepted e (fetched execution_id c' w3)
                      | Ok message =>
                          (Some (Ok message), fetched execution_id c' w3)
                      end
                  end
              | (Some (Ok (Return message)), w3) => (Some (Ok message), w3)
              | (Some (Raise e), w3) => excepted e w3
              | (None, w3) => (None, w3)
              end
            else
              (Some (Ok (UX.success_no_text
                           (lit "(no execution_id)" ++ UX.nl
                            ++ _json_compact j default_limit))), w1)
        end
      else
        (Some (Ok (UX.backend_err (status_code resp)
                     (firstn 2000 (text resp)))), w1)
  end.
Proof.
  rewrite handle_run, route_body_run. cbn zeta. unfold excepted.
  destruct (reply_of _) as [resp | e]; [| apply on_exception_run].
  destruct (is_2xx _); [| reflexivity].
  destruct (py_get _ _) as [id | e]; [| apply on_exception_run].
  destruct (truthy id); [| reflexivity].
  destruct (loop _ _ _ _ _) as [[[[| message] | e] |] w3];
    try reflexivity; [| apply on_exception_run].
  destruct (delivered _) as [p | e]; [| apply on_exception_run].
  destruct (text_of_result p) as [m | e];
    [reflexivity | apply on_exception_run].
Qed.

End Cases.

(** ** What the extractor returns *)

Lemma lstrip_suffix (s : str) :
  exists spaces, s = spaces ++ lstrip s.
Proof.
  induction s as [| c s [spaces IH]]; [exists []; reflexivity |].
  cbn. destruct (isspace c).
  - exists (c :: spaces). cbn. rewrite <- IH. reflexivity.
  - exists []. reflexivity.
Qed.

Lemma lstrip_head (s : str) : no_space_at (hd_error (lstrip s)).
Proof.
  induction s as [| c s IH]; [exact I |].
  cbn. destruct (isspace c) eqn:E; [exact IH | exact E].
Qed.

Lemma rstrip_prefix (s : str) :
  exists spaces, s = rstrip s ++ spaces.
Proof.
  unfold rstrip. destruct (lstrip_suffix (rev s)) as [spaces H].
  exists (rev spaces). rewrite <- rev_app_distr, <- H. symmetry.
  apply rev_involutive.
Qed.

Lemma strip_head (s : str) : no_space_at (hd_error (strip s)).
Proof.
  unfold strip. pose proof (lstrip_head s) as Hhead.
  destruct (rstrip_prefix (lstrip s)) as [spaces H].
  destruct (rstrip (lstrip s)) as [| c t]; [exact I |].
  rewrite H in Hhead. exact Hhead.
Qed.

Lemma strip_last (s : str) : no_space_at (hd_error (rev (strip s))).
Proof.
  unfold strip, rstrip. rewrite rev_involutive. apply lstrip_head.
Qed.

Lemma dumps_object_edges (fr : dict) :
  exists middle, json_dumps (JObj fr) = 123%N :: middle ++ [125%N].
Proof.
  unfold json_dumps. destruct fr as [| kv fr].
  - exists []. reflexivity.
  - cbn [dumps_at]. eexists. cbn [lit app].
    rewrite !app_assoc. reflexivity.
Qed.

Lemma compact_object_edges (fr : dict) (limit : nat) :
  (0 < limit)%nat ->
  exists middle last,
    _json_compact (JObj fr) limit = 123%N :: middle ++ [last]
    /\ isspace last = false.
Proof.
  intros Hlimit. unfold _json_compact.
  destruct (dumps_object_edges fr) as [middle ->].
  destruct (_ <=? _)%nat.
  - exists middle, 125%N. split; reflexivity.
  - destruct limit as [| limit]; [lia |].
    cbn [firstn]. unfold ellipsis.
    exists (firstn limit (middle ++ [125%N]) ++ [32%N]), 8230%N.
    split; [| reflexivity].
    cbn [app]. rewrite <- app_assoc. reflexivity.
Qed.

Lemma edges_no_space (first last : N) (middle : str) :
  isspace first = false -> isspace last = false ->
  no_space_at (hd_error (first :: middle ++ [last]))
  /\ no_space_at (hd_error (rev (first :: middle ++ [last]))).
Proof.
  intros Hfirst Hlast. split; [exact Hfirst |].
  cbn [rev]. rewrite rev_app_distr. exact Hlast.
Qed.

Lemma probe_trimmed (fr : dict) (keys : list str) (t : str) :
  probe fr keys = Some t -> exists v, t = strip v /\ nonempty t = true.
Proof.
  induction keys as [| k keys IH]; [discriminate |].
  cbn [probe]. destruct (dict_get fr k); try exact IH.
  destruct (nonempty (strip s)) eqn:E; [| exact IH].
  intros [= <-]. exists s. auto.
Qed.


(** X1. A text the extractor returns is never empty, and it begins and
    ends with a character that is not white space. *)
Theorem extracted_text_is_trimmed (payload : json) (t : str) :
  _extract_final_text_from_payload payload = Ok (Some t) ->
  t <> []
  /\ no_space_at (hd_error t)
  /\ no_space_at (hd_error (rev t)).
Proof.
  unfold _extract_final_text_from_payload.
  destruct (py_get payload (lit "final_result")) as [fr | e];
    [| discriminate].
  assert (Hstrip : forall v, nonempty (strip v) = true ->
            strip v <> []
            /\ no_space_at (hd_error (strip v))
            /\ no_space_at (hd_error (rev (strip v)))).
  { intros v Hv. split; [intros H; rewrite H in Hv; discriminate |].
    split; [apply strip_head | apply strip_last]. }
  destruct fr as [| b | z | f | s | items | fr]; try discriminate.
  - cbn zeta. destruct (nonempty (strip s)) eqn:E; [| discriminate].
    intros [= <-]. apply Hstrip, E.
  - destruct (probe fr candidate_keys) as [v |] eqn:Hprobe.
    + intros [= <-].
      destruct (probe_trimmed _ _ _ Hprobe) as (v' & -> & Hv).
      apply Hstrip, Hv.
    + intros [= <-].
      destruct (compact_object_edges fr default_limit) as
        (middle & last & -> & Hlast); [unfold default_limit; lia |].
      split; [discriminate |].
      apply edges_no_space; [reflexivity | exact Hlast].
Qed.

Lemma extracted_text_of_padded_result :
  lit "x" <> []
  /\ no_space_at (hd_error (lit "x"))
  /\ no_space_at (hd_error (rev (lit "x"))).
Proof.
  apply (extracted_text_is_trimmed
           (JObj [(lit "final_result",
                   JObj [(lit "result", JStr (lit "  x  "))])])).
  reflexivity.
Defined.



(** ** Trimming the text of a message *)

Lemma soft_trim_nonneg (limit : Z) (s : str) :
  0 <= limit ->
  _soft_trim_user_text limit s
  = (firstn (Z.to_nat limit) s,
     if limit <? Z.of_nat (length s) then Some (trim_warn limit) else None)
  /\ Z.of_nat (length (firstn (Z.to_nat limit) s)) <= limit.
Proof.
  intros Hlimit. unfold _soft_trim_user_text, slice_to.
  rewrite (ltb_false _ _ Hlimit). split.
  - destruct (limit <? Z.of_nat (length s)) eqn:E; [reflexivity |].
    apply Z.ltb_ge in E. rewrite firstn_all2 by lia. reflexivity.
  - pose proof (firstn_le_length (Z.to_nat limit) s). lia.
Qed.

(** X3. With a limit that is not negative, the text kept is the first
    [limit] characters of the message, so it is no longer than the
    limit; there is a warning exactly when the message is longer than
    the limit, the text is then exactly [limit] characters long, and
    without a warning the text is the message. *)
Theorem soft_trim_user_text_spec (limit : Z) (s : str) :
  0 <= limit ->
  fst (_soft_trim_user_text limit s) = firstn (Z.to_nat limit) s
  /\ Z.of_nat (length (fst (_soft_trim_user_text limit s))) <= limit
  /\ (snd (_soft_trim_user_text limit s) = None
      <-> Z.of_nat (length s) <= limit)
  /\ (snd (_soft_trim_user_text limit s) = None ->
      fst (_soft_trim_user_text limit s) = s)
  /\ (snd (_soft_trim_user_text limit s) <> None ->
      snd (_soft_trim_user_text limit s) = Some (trim_warn limit)
      /\ Z.of_nat (length (fst (_soft_trim_user_text limit s))) = limit).
Proof.
  intros Hlimit. unfold _soft_trim_user_text, slice_to.
  rewrite (ltb_false _ _ Hlimit).
  destruct (limit <? Z.of_nat (length s)) eqn:E; cbn [fst snd].
  - apply Z.ltb_lt in E.
    assert (Hlen : length (firstn (Z.to_nat limit) s) = Z.to_nat limit)
      by (apply firstn_length_le; lia).
    rewrite Hlen.
    repeat split; try lia; try discriminate; try congruence.
  - apply Z.ltb_ge in E.
    rewrite firstn_all2 by lia.
    repeat split; try lia; try congruence.
Qed.

Lemma soft_trim_user_text_example :
  fst (_soft_trim_user_text 3 (lit "hello")) = lit "hel"
  /\ snd (_soft_trim_user_text 3 (lit "hello")) = Some (trim_warn 3).
Proof.
  destruct (soft_trim_user_text_spec 3 (lit "hello")) as
    (Htext & _ & _ & _ & Hwarn); [lia |].
  split; [exact Htext |].
  apply Hwarn. discriminate.
Defined.

(** ** What a call does *)

Section Runs.

Variable lower_nonascii : str -> nat -> N -> str.
Variable B : Backend.
Variable config : Runtime.

Notation status := (status_of lower_nonascii).
Notation loop := (poll_loop lower_nonascii B config).
Notation handle := (handle_default_route lower_nonascii B config).

(** A property of the world a call ends in, from its three stages: the
    submission, the loop, the result request. *)
Lemma handle_final (P : World -> Prop) (fuel : nat) (prompt : str)
    (user_id : Z) (w : World) :
  let request := job_request prompt user_id in
  let w1 := posted request (post B request) w in
  P w1 ->
  (forall e w', P w' -> P (logged (LogException e) w')) ->
  (forall resp execution_id,
      reply_of (post B request) = Answers resp ->
      is_2xx (status_code resp) = true ->
      py_get (match parsed resp with Json j => j | _ => JObj [] end)
        (lit "execution_id") = Ok execution_id ->
      truthy execution_id = true ->
      let w2 := logged (LogStarted execution_id) w1 in
      let run := loop fuel execution_id (clock w2) None w2 in
      (fst run <> Some (Ok Break) -> P (snd run))
      /\ (fst run = Some (Ok Break) ->
          P (fetched execution_id (get_result B execution_id) (snd run)))) ->
  P (snd (handle fuel prompt user_id w)).
Proof.
  intros request w1 H1 Hlog Hloop.
  assert (Hexn : forall e w', P w' -> P (snd (excepted e w'))).
  { intros e w' Hw'. destruct e; cbn; auto. }
  rewrite handle_default_route_run. cbn zeta.
  fold request. fold w1.
  destruct (reply_of (post B request)) as [resp | e] eqn:Hpost;
    [| apply Hexn, H1].
  destruct (is_2xx (status_code resp)) eqn:H2xx; [| exact H1].
  destruct (py_get _ (lit "execution_id")) as [id | e] eqn:Hid;
    [| apply Hexn, H1].
  destruct (truthy id) eqn:Htruthy; [| exact H1].
  destruct (Hloop resp id eq_refl H2xx Hid Htruthy) as [Hother Hbreak].
  cbn zeta in Hother, Hbreak.
  destruct (loop fuel id _ None _) as [[[[| message] | e] |] w3];
    cbn [fst snd] in Hother, Hbreak.
  - specialize (Hbreak eq_refl).
    destruct (delivered _) as [p | e]; [| apply Hexn, Hbreak].
    destruct (text_of_result p) as [m | e];
      [exact Hbreak | apply Hexn, Hbreak].
  - apply Hother. discriminate.
  - apply Hexn, Hother. discriminate.
  - apply Hother. discriminate.
Qed.

(** *** How many status requests *)

Section Bounded.

Hypothesis interval_positive : 0 < poll_interval config.
Hypothesis budget_not_negative : 0 <= max_wait config.
Hypothesis sleep_lasts : forall n d, d <= sleep B n d.
Hypothesis requests_take_time :
  forall n execution_id, 0 <= took (get_status B n execution_id).

Lemma loop_polls_bound (execution_id : json) (t0 : Z) (fuel : nat)
    (last : option str) (w : World) :
  (Z.of_nat (polls w) - 1) * poll_interval config <= max_wait config ->
  Z.of_nat (polls w) * poll_interval config <= clock w - t0 ->
  (Z.of_nat (polls (snd (loop fuel execution_id t0 last w))) - 2)
  * poll_interval config <= max_wait config.
Proof.
  intros Hbefore Hnow.
  apply (loop_cases lower_nonascii B config
           (fun _ w =>
              (Z.of_nat (polls w) - 1) * poll_interval config
              <= max_wait config
              /\ Z.of_nat (polls w) * poll_interval config <= clock w - t0)
           (fun _ w' =>
              (Z.of_nat (polls w') - 2) * poll_interval config
              <= max_wait config)
           execution_id t0); [| | | | split; assumption].
  - intros _ w0 [H1 _]. nia.
  - intros _ w0 e [H1 _] _.
    change (polls (requested _ _ w0)) with (S (polls w0)). nia.
  - intros _ w0 p e [H1 _] _ _.
    change (polls (requested _ _ w0)) with (S (polls w0)). nia.
  - intros last0 w0 p s [H1 H2] _ _. cbn zeta.
    set (c := get_status B (polls w0) execution_id).
    pose proof (requests_take_time (polls w0) execution_id) as Htook.
    fold c in Htook.
    assert (Hexit : (Z.of_nat (polls (noted execution_id last0 s
                                        (requested execution_id c w0))) - 2)
                    * poll_interval config <= max_wait config)
      by (rewrite polls_round; nia).
    split; [intros _; exact Hexit |].
    split; [intros _ _; exact Hexit |].
    split; [intros _ _ _; exact Hexit |].
    intros _ Hwithin _.
    rewrite clock_noted in Hwithin. cbn [requested clock] in Hwithin.
    change (polls (slept _ _ ?x)) with (polls x).
    rewrite polls_round. cbn [slept clock].
    rewrite clock_noted. cbn [requested clock].
    pose proof (sleep_lasts
                  (sleeps (noted execution_id last0 s
                             (requested execution_id c w0)))
                  (poll_interval config)).
    split; nia.
Qed.

(** X4. With a positive polling interval, a budget that is not negative,
    sleeps that last at least what was asked and status requests that
    take no negative time, a call makes at most
    [max_wait / poll_interval + 2] status requests, whatever the backend
    answers: 122 with the settings of [RUNTIME]. *)
Theorem polls_are_bounded (fuel : nat) (prompt : str) (user_id t : Z) :
  Z.of_nat (polls (snd (handle fuel prompt user_id (start t))))
  <= max_wait config / poll_interval config + 2.
Proof.
  assert (Hgoal : (Z.of_nat (polls (snd (handle fuel prompt user_id
                                          (start t)))) - 2)
                  * poll_interval config <= max_wait config).
  { apply (handle_final
             (fun w => (Z.of_nat (polls w) - 2) * poll_interval config
                       <= max_wait config)).
    - change (polls (posted _ _ (start t))) with 0%nat. lia.
    - intros e w' Hw'. exact Hw'.
    - intros resp id _ _ _ _. cbn zeta.
      assert (Hloop := loop_polls_bound id
                         (clock (logged (LogStarted id)
                                   (posted (job_request prompt user_id)
                                      (post B (job_request prompt user_id))
                                      (start t))))
                         fuel None
                         (logged (LogStarted id)
                            (posted (job_request prompt user_id)
                               (post B (job_request prompt user_id))
                               (start t)))).
      change (polls (logged _ (posted _ _ (start t)))) with 0%nat in Hloop.
      split; intros _; apply Hloop; lia. }
  assert (Hq : Z.of_nat (polls (snd (handle fuel prompt user_id (start t))))
               - 2 <= max_wait config / poll_interval config).
  { apply Z.div_le_lower_bound; [exact interval_positive |].
    rewrite Z.mul_comm. exact Hgoal. }
  lia.
Qed.

End Bounded.

(** *** Which requests, and how many *)

Lemma in_noted (execution_id : json) (last : option str) (s : str)
    (w : World) (ev : event) :
  In ev (trace (noted execution_id last s w)) ->
  ev = EvLog (LogStatus execution_id s) \/ In ev (trace w).
Proof.
  destruct (trace_noted execution_id last s w) as [-> | ->]; cbn; auto.
  intros [<- | H]; auto.
Qed.

(** A property of the events that the events of the loop have holds of
    the whole trace when the loop is left. *)
Lemma loop_events (R : event -> Prop) (execution_id : json) (t0 : Z)
    (fuel : nat) (last : option str) (w : World) :
  (forall c, R (EvStatus execution_id c)) ->
  (forall s, R (EvLog (LogStatus execution_id s))) ->
  (forall lasted, R (EvSleep (poll_interval config) lasted)) ->
  (forall ev, In ev (trace w) -> R ev) ->
  forall ev,
    In ev (trace (snd (loop fuel execution_id t0 last w))) -> R ev.
Proof.
  intros Hstatus Hlog Hsleep Hw.
  apply (loop_cases lower_nonascii B config
           (fun _ w => forall ev, In ev (trace w) -> R ev)
           (fun _ w => forall ev, In ev (trace w) -> R ev)
           execution_id t0); [| | | | exact Hw].
  - intros _ w0 H0. exact H0.
  - intros _ w0 e H0 _ ev [<- | Hin]; auto.
  - intros _ w0 p e H0 _ _ ev [<- | Hin]; auto.
  - intros last0 w0 p s H0 _ _. cbn zeta.
    assert (H2 : forall ev,
              In ev (trace (noted execution_id last0 s
                              (requested execution_id
                                 (get_status B (polls w0) execution_id) w0))) ->
              R ev).
    { intros ev Hin. apply in_noted in Hin.
      destruct Hin as [-> | [<- | Hin]]; auto. }
    split; [intros _; exact H2 |].
    split; [intros _ _; exact H2 |].
    split; [intros _ _ _; exact H2 |].
    intros _ _ _ ev [<- | Hin]; auto.
Qed.

(** X5. Every status request and the result request of a call are made
    with the execution identifier that the answer to the submission
    held, a true value under [execution_id] of a 2xx answer. *)
Theorem requests_use_the_submitted_id (fuel : nat) (prompt : str)
    (user_id t : Z) (ev : event) (execution_id : json) :
  In ev (trace (snd (handle fuel prompt user_id (start t)))) ->
  request_id ev = Some execution_id ->
  exists resp,
    reply_of (post B (job_request prompt user_id)) = Answers resp
    /\ is_2xx (status_code resp) = true
    /\ py_get (match parsed resp with Json j => j | _ => JObj [] end)
         (lit "execution_id") = Ok execution_id
    /\ truthy execution_id = true.
Proof.
  revert ev execution_id.
  apply (handle_final
           (fun w => forall ev id,
              In ev (trace w) -> request_id ev = Some id ->
              exists resp,
                reply_of (post B (job_request prompt user_id)) = Answers resp
                /\ is_2xx (status_code resp) = true
                /\ py_get (match parsed resp with
                           | Json j => j
                           | _ => JObj []
                           end) (lit "execution_id") = Ok id
                /\ truthy id = true)).
  - intros ev id [<- | []]. discriminate.
  - intros e w' Hw' ev id [<- | Hin]; [discriminate | apply Hw', Hin].
  - intros resp id0 Hpost H2xx Hid Htruthy. cbn zeta.
    assert (Hloop : forall ev,
              In ev (trace (snd (loop fuel id0
                                   (clock (logged (LogStarted id0)
                                             (posted (job_request prompt user_id)
                                                (post B (job_request prompt user_id))
                                                (start t))))
                                   None
                                   (logged (LogStarted id0)
                                      (posted (job_request prompt user_id)
                                         (post B (job_request prompt user_id))
                                         (start t)))))) ->
              forall id, request_id ev = Some id -> id = id0).
    { apply (loop_events
               (fun ev => forall id, request_id ev = Some id -> id = id0)).
      - intros c id [= <-]. reflexivity.
      - intros s id. discriminate.
      - intros lasted id. discriminate.
      - intros ev [<- | [<- | []]] id; discriminate. }
    assert (Hfound : forall ev id,
              (ev = EvResult id0 (get_result B id0) \/
               In ev (trace (snd (loop fuel id0
                                    (clock (logged (LogStarted id0)
                                              (posted (job_request prompt user_id)
                                                 (post B (job_request prompt user_id))
                                                 (start t))))
                                    None
                                    (logged (LogStarted id0)
                                       (posted (job_request prompt user_id)
                                          (post B (job_request prompt user_id))
                                          (start t))))))) ->
              request_id ev = Some id ->
              exists resp0,
                reply_of (post B (job_request prompt user_id)) = Answers resp0
                /\ is_2xx (status_code resp0) = true
                /\ py_get (match parsed resp0 with
                           | Json j => j
                           | _ => JObj []
                           end) (lit "execution_id") = Ok id
                /\ truthy id = true).
    { intros ev id Hin Hev. exists resp.
      assert (id = id0) as ->.
      { destruct Hin as [-> | Hin]; [injection Hev; auto |].
        apply (Hloop ev Hin id Hev). }
      auto. }
    split; intros _ ev id Hin; apply Hfound.
    + right. exact Hin.
    + destruct Hin as [<- | Hin]; [left; reflexivity | right; exact Hin].
Qed.

Lemma changes_cons (s : str) (l : list str) :
  changes (s :: l) =
  match hd_error l with
  | Some b => if eqb s b then changes l else s :: changes l
  | None => [s]
  end.
Proof. destruct l; reflexivity. Qed.

Lemma loop_logs_changes (execution_id : json) (t0 : Z) (fuel : nat)
    (last : option str) (w : World) :
  logged_statuses (trace w) = changes (read_statuses lower_nonascii (trace w)) ->
  hd_error (read_statuses lower_nonascii (trace w)) = last ->
  logged_statuses (trace (snd (loop fuel execution_id t0 last w)))
  = changes (read_statuses lower_nonascii
               (trace (snd (loop fuel execution_id t0 last w)))).
Proof.
  intros Hlog Hlast.
  apply (loop_cases lower_nonascii B config
           (fun last w =>
              logged_statuses (trace w)
              = changes (read_statuses lower_nonascii (trace w))
              /\ hd_error (read_statuses lower_nonascii (trace w)) = last)
           (fun _ w =>
              logged_statuses (trace w)
              = changes (read_statuses lower_nonascii (trace w)))
           execution_id t0); [| | | | split; assumption].
  - intros _ w0 [H0 _]. exact H0.
  - intros _ w0 e [H0 _] Hc. cbn. rewrite Hc. exact H0.
  - intros _ w0 p e [H0 _] Hc Hs. cbn. rewrite Hc, Hs. exact H0.
  - intros last0 w0 p s [H0 Hlast0] Hc Hs. cbn zeta.
    set (c := get_status B (polls w0) execution_id) in *.
    assert (Hread : read_statuses lower_nonascii
                      (trace (noted execution_id last0 s
                                (requested execution_id c w0)))
                    = s :: read_statuses lower_nonascii (trace w0)).
    { destruct (trace_noted execution_id last0 s
                  (requested execution_id c w0)) as [-> | ->];
        cbn; rewrite Hc, Hs; reflexivity. }
    assert (H2 : logged_statuses
                   (trace (noted execution_id last0 s
                             (requested execution_id c w0)))
                 = changes (read_statuses lower_nonascii
                              (trace (noted execution_id last0 s
                                        (requested execution_id c w0))))).
    { rewrite Hread, changes_cons, Hlast0. unfold noted.
      destruct last0 as [l |].
      - rewrite <- H0. destruct (eqb s l); reflexivity.
      - cbn. rewrite H0.
        destruct (read_statuses lower_nonascii (trace w0));
          [reflexivity | discriminate Hlast0]. }
    split; [intros _; exact H2 |].
    split; [intros _ _; exact H2 |].
    split; [intros _ _ _; exact H2 |].
    intros _ _ _. split; [exact H2 |].
    cbn [slept trace read_statuses]. rewrite Hread. reflexivity.
Qed.

(** X6. The statuses a call writes to the log are the statuses it read,
    in order, without those equal to the status read just before: the
    first status is logged, and a later one exactly when it differs from
    its predecessor. *)
Theorem statuses_logged_on_change (fuel : nat) (prompt : str)
    (user_id t : Z) :
  logged_statuses (trace (snd (handle fuel prompt user_id (start t))))
  = changes (read_statuses lower_nonascii
               (trace (snd (handle fuel prompt user_id (start t))))).
Proof.
  apply (handle_final
           (fun w => logged_statuses (trace w)
                     = changes (read_statuses lower_nonascii (trace w)))).
  - reflexivity.
  - intros e w' Hw'. exact Hw'.
  - intros resp id _ _ _ _. cbn zeta.
    split; intros _; apply loop_logs_changes; reflexivity.
Qed.


Lemma loop_sleeps_polls (execution_id : json) (t0 : Z) (fuel : nat)
    (last : option str) (w : World) :
  sleeps w = polls w ->
  (sleeps (snd (loop fuel execution_id t0 last w))
   <= polls (snd (loop fuel execution_id t0 last w))
   <= S (sleeps (snd (loop fuel execution_id t0 last w))))%nat.
Proof.
  intros Hw.
  apply (loop_cases lower_nonascii B config
           (fun _ w => sleeps w = polls w)
           (fun _ w => (sleeps w <= polls w <= S (sleeps w))%nat)
           execution_id t0); [| | | | exact Hw].
  - intros _ w0 H0. lia.
  - intros _ w0 e H0 _.
    change (polls (requested _ _ w0)) with (S (polls w0)).
    change (sleeps (requested _ _ w0)) with (sleeps w0). lia.
  - intros _ w0 p e H0 _ _.
    change (polls (requested _ _ w0)) with (S (polls w0)).
    change (sleeps (requested _ _ w0)) with (sleeps w0). lia.
  - intros last0 w0 p s H0 _ _. cbn zeta.
    split; [intros _; rewrite polls_round, sleeps_round; lia |].
    split; [intros _ _; rewrite polls_round, sleeps_round; lia |].
    split; [intros _ _ _; rewrite polls_round, sleeps_round; lia |].
    intros _ _ _.
    change (polls (slept _ _ ?x)) with (polls x).
    change (sleeps (slept _ _ ?x)) with (S (sleeps x)).
    rewrite polls_round, sleeps_round. lia.
Qed.

(** X7. A call submits exactly once and asks for the result at most
    once; the number of its sleeps is the number of its status requests
    or one less, and every sleep asks for the polling interval. *)
Theorem one_submission_one_fetch (fuel : nat) (prompt : str)
    (user_id t : Z) :
  let w' := snd (handle fuel prompt user_id (start t)) in
  count is_post w' = 1%nat
  /\ (fetches w' <= 1)%nat
  /\ (sleeps w' <= polls w' <= S (sleeps w'))%nat
  /\ (forall asked lasted,
        In (EvSleep asked lasted) (trace w') ->
        asked = poll_interval config).
Proof.
  cbn zeta.
  apply (handle_final
           (fun w =>
              count is_post w = 1%nat
              /\ (fetches w <= 1)%nat
              /\ (sleeps w <= polls w <= S (sleeps w))%nat
              /\ (forall asked lasted,
                    In (EvSleep asked lasted) (trace w) ->
                    asked = poll_interval config))).
  - repeat split; cbn; try lia. intros asked lasted [H | []]. discriminate.
  - intros e w' (Hp & Hf & Hs & Hd). repeat split; try assumption.
    + apply Hs.
    + apply Hs.
    + intros asked lasted [H | Hin]; [discriminate | apply (Hd _ _ Hin)].
  - intros resp id _ _ _ _. cbn zeta.
    set (w2 := logged (LogStarted id) _).
    pose proof (loop_keeps_count lower_nonascii B config is_post fuel id
                  (clock w2) (fun _ _ => eq_refl) (fun _ => eq_refl)
                  (fun _ _ => eq_refl) None w2) as Hposts.
    pose proof (loop_keeps_count lower_nonascii B config is_result fuel id
                  (clock w2) (fun _ _ => eq_refl) (fun _ => eq_refl)
                  (fun _ _ => eq_refl) None w2) as Hfetches.
    pose proof (loop_sleeps_polls id (clock w2) fuel None w2 eq_refl)
      as Hsleeps.
    assert (Hasked : forall ev,
              In ev (trace (snd (loop fuel id (clock w2) None w2))) ->
              forall asked lasted,
                ev = EvSleep asked lasted -> asked = poll_interval config).
    { apply (loop_events
               (fun ev => forall asked lasted,
                  ev = EvSleep asked lasted -> asked = poll_interval config)).
      - intros c asked lasted. discriminate.
      - intros s asked lasted. discriminate.
      - intros lasted0 asked lasted [= <- _]. reflexivity.
      - intros ev [<- | [<- | []]] asked lasted; discriminate. }
    change (count is_post w2) with 1%nat in Hposts.
    change (count is_result w2) with 0%nat in Hfetches.
    split; intros _.
    + repeat split; try apply Hsleeps.
      * exact Hposts.
      * unfold fetches. rewrite Hfetches. lia.
      * intros asked lasted Hin. apply (Hasked _ Hin asked lasted eq_refl).
    + repeat split; try apply Hsleeps.
      * exact Hposts.
      * change (S (count is_result (snd (loop fuel id (clock w2) None w2)))
                <= 1)%nat.
        rewrite Hfetches. lia.
      * intros asked lasted [H | Hin]; [discriminate |].
        apply (Hasked _ Hin asked lasted eq_refl).
Qed.

(** *** What the call returns after the loop *)



(** *** Answers of the wrong shape *)

(** X9. A 2xx answer to the submission whose body is JSON but not a
    mapping makes [j.get] raise: the call returns the unexpected-error
    text that names the type of the body, and makes no status or result
    request. *)
Theorem non_mapping_submission_body (fuel : nat) (prompt : str)
    (user_id t : Z) (r : Response) (j : json) :
  reply_of (post B (job_request prompt user_id)) = Answers r ->
  is_2xx (status_code r) = true ->
  parsed r = Json j ->
  (forall d, j <> JObj d) ->
  exists w',
    handle fuel prompt user_id (start t)
    = (Some (Ok (UX.cross_mark ++ lit " Unexpected error: '"
                 ++ type_name j
                 ++ lit "' object has no attribute 'get'")), w')
    /\ polls w' = 0%nat /\ fetches w' = 0%nat.
Proof.
  intros Hpost Hcode Hbody Hj.
  rewrite handle_default_route_run. cbn zeta.
  rewrite Hpost, Hcode, Hbody.
  destruct j as [| b | z | f | s | items | d];
    try (eexists; split; [reflexivity | split; reflexivity]).
  destruct (Hj d eq_refl).
Qed.

Lemma status_of_raises (p : json) (e : exn) :
  status p = Raise e ->
  ((forall d, p <> JObj d) /\ e = attribute_error p (lit "get"))
  \/ (exists d,
        p = JObj d
        /\ truthy (dict_get d (lit "status")) = true
        /\ (forall s, dict_get d (lit "status") <> JStr s)
        /\ e = attribute_error (dict_get d (lit "status")) (lit "lower")).
Proof.
  unfold status_of, py_get.
  destruct p as [| b | z | f | s | items | d];
    try (intros [= <-]; left; split; [discriminate | reflexivity]).
  intros H. right. exists d. split; [reflexivity |].
  unfold py_or in H.
  destruct (truthy (dict_get d (lit "status"))) eqn:Ht;
    [| discriminate H].
  split; [reflexivity |].
  destruct (dict_get d (lit "status")); try discriminate H;
    injection H as <-; (split; [discriminate | reflexivity]).
Qed.

Lemma loop_unreadable_status (execution_id : json) (t0 : Z) (fuel : nat)
    (last : option str) (w : World) :
  (forall id c p e,
      In (EvStatus id c) (trace w) -> delivered c = Ok p ->
      status p = Raise e -> False) ->
  forall id c p e,
    In (EvStatus id c) (trace (snd (loop fuel execution_id t0 last w))) ->
    delivered c = Ok p ->
    status p = Raise e ->
    fst (loop fuel execution_id t0 last w) = Some (Raise e).
Proof.
  intros Hw.
  apply (loop_cases lower_nonascii B config
           (fun _ w =>
              forall id c p e,
                In (EvStatus id c) (trace w) -> delivered c = Ok p ->
                status p = Raise e -> False)
           (fun o w =>
              forall id c p e,
                In (EvStatus id c) (trace w) -> delivered c = Ok p ->
                status p = Raise e -> o = Some (Raise e))
           execution_id t0); [| | | | exact Hw].
  - intros _ w0 H0 id c p e Hin Hc Hs. destruct (H0 id c p e Hin Hc Hs).
  - intros _ w0 e0 H0 Hc0 id c p e [[= _ <-] | Hin] Hc Hs.
    + congruence.
    + destruct (H0 id c p e Hin Hc Hs).
  - intros _ w0 p0 e0 H0 Hc0 Hs0 id c p e [[= _ <-] | Hin] Hc Hs.
    + congruence.
    + destruct (H0 id c p e Hin Hc Hs).
  - intros last0 w0 p0 s H0 Hc0 Hs0. cbn zeta.
    assert (H2 : forall id c p e,
              In (EvStatus id c)
                 (trace (noted execution_id last0 s
                           (requested execution_id
                              (get_status B (polls w0) execution_id) w0))) ->
              delivered c = Ok p -> status p = Raise e -> False).
    { intros id c p e Hin Hc Hs. apply in_noted in Hin.
      destruct Hin as [Hin | [[= _ <-] | Hin]].
      - discriminate Hin.
      - congruence.
      - apply (H0 id c p e Hin Hc Hs). }
    split; [intros _ id c p e Hin Hc Hs; destruct (H2 id c p e Hin Hc Hs) |].
    split;
      [intros _ _ id c p e Hin Hc Hs; destruct (H2 id c p e Hin Hc Hs) |].
    split;
      [intros _ _ _ id c p e Hin Hc Hs; destruct (H2 id c p e Hin Hc Hs) |].
    intros _ _ _ id c p e [Hin | Hin]; [discriminate Hin |].
    apply (H2 id c p e Hin).
Qed.

(** X10. When a status request delivers a payload whose status cannot
    be read, the call ends there with the unexpected-error text of the
    exception. That happens for a payload that is not a mapping
    ([get] is missing) and for a mapping whose [status] is a true value
    that is not a string ([lower] is missing), and in no other case. *)
Theorem unreadable_status_is_unexpected (fuel : nat) (prompt : str)
    (user_id t : Z) (execution_id : json) (c : call) (p : json) (e : exn) :
  In (EvStatus execution_id c)
     (trace (snd (handle fuel prompt user_id (start t)))) ->
  delivered c = Ok p ->
  status p = Raise e ->
  fst (handle fuel prompt user_id (start t)) = Some (Ok (message_of e))
  /\ (((forall d, p <> JObj d)
       /\ message_of e
          = UX.cross_mark ++ lit " Unexpected error: '" ++ type_name p
            ++ lit "' object has no attribute 'get'")
      \/ (exists d,
            p = JObj d
            /\ truthy (dict_get d (lit "status")) = true
            /\ (forall s, dict_get d (lit "status") <> JStr s)
            /\ message_of e
               = UX.cross_mark ++ lit " Unexpected error: '"
                 ++ type_name (dict_get d (lit "status"))
                 ++ lit "' object has no attribute 'lower'")).
Proof.
  intros Hin Hc Hs. split.
  - revert Hin. rewrite handle_default_route_run. cbn zeta.
    set (request := job_request prompt user_id).
    set (w1 := posted request (post B request) (start t)).
    assert (Hexn : forall e0 w0,
              In (EvStatus execution_id c) (trace (snd (excepted e0 w0))) ->
              In (EvStatus execution_id c) (trace w0)).
    { intros e0 w0 Hin. destruct e0; cbn in Hin; try exact Hin.
      destruct Hin as [H | Hin]; [discriminate | exact Hin]. }
    assert (H1 : ~ In (EvStatus execution_id c) (trace w1))
      by (intros [H | []]; discriminate).
    destruct (reply_of (post B request)) as [resp | e0];
      [| intros Hin; destruct (H1 (Hexn _ _ Hin))].
    destruct (is_2xx (status_code resp));
      [| intros Hin; destruct (H1 Hin)].
    destruct (py_get _ (lit "execution_id")) as [id | e0];
      [| intros Hin; destruct (H1 (Hexn _ _ Hin))].
    destruct (truthy id); [| intros Hin; destruct (H1 Hin)].
    set (w2 := logged (LogStarted id) w1).
    assert (H2 : forall id0 c0 p0 e0,
              In (EvStatus id0 c0) (trace w2) -> delivered c0 = Ok p0 ->
              status p0 = Raise e0 -> False)
      by (intros id0 c0 p0 e0 [H | [H | []]]; discriminate).
    pose proof (loop_unreadable_status id (clock w2) fuel None w2 H2
                  execution_id c p e) as Hloop.
    destruct (loop fuel id (clock w2) None w2) as [[[[| message] | e0] |] w3];
      cbn [fst snd] in Hloop.
    + intros Hin. exfalso.
      assert (Hin3 : In (EvStatus execution_id c) (trace w3)).
      { destruct (delivered (get_result B id)) as [q | e0].
        - destruct (text_of_result q) as [m | e0].
          + destruct Hin as [H | Hin]; [discriminate | exact Hin].
          + apply Hexn in Hin.
            destruct Hin as [H | Hin]; [discriminate | exact Hin].
        - apply Hexn in Hin.
          destruct Hin as [H | Hin]; [discriminate | exact Hin]. }
      discriminate (Hloop Hin3 Hc Hs).
    + intros Hin. discriminate (Hloop Hin Hc Hs).
    + intros Hin. apply Hexn in Hin.
      pose proof (Hloop Hin Hc Hs) as [= ->]. reflexivity.
    + intros Hin. discriminate (Hloop Hin Hc Hs).
  - destruct (status_of_raises p e Hs) as [[Hp ->] | (d & -> & Ht & Hv & ->)].
    + left. split; [exact Hp | reflexivity].
    + right. exists d. repeat split; try assumption.
Qed.

(** *** Giving up *)

Lemma loop_give_up (execution_id : json) (t0 : Z) (fuel : nat)
    (last : option str) (w : World) :
  forall m,
    fst (loop fuel execution_id t0 last w) = Some (Ok (Return m)) ->
    max_wait config < clock (snd (loop fuel execution_id t0 last w)) - t0
    /\ (polls w < polls (snd (loop fuel execution_id t0 last w)))%nat
    /\ exists s,
        m = wait_timeout_msg s
        /\ is_terminal s = false
        /\ hd_error (read_statuses lower_nonascii
                       (trace (snd (loop fuel execution_id t0 last w))))
           = Some s.
Proof.
  apply (loop_cases lower_nonascii B config
           (fun _ w0 => (polls w <= polls w0)%nat)
           (fun o w0 =>
              forall m, o = Some (Ok (Return m)) ->
                max_wait config < clock w0 - t0
                /\ (polls w < polls w0)%nat
                /\ exists s,
                    m = wait_timeout_msg s
                    /\ is_terminal s = false
                    /\ hd_error (read_statuses lower_nonascii (trace w0))
                       = Some s)
           execution_id t0); [| | | | apply le_n].
  - discriminate.
  - discriminate.
  - discriminate.
  - intros last0 w0 p s Hpolls Hc Hs. cbn zeta.
    split; [discriminate |].
    split.
    + intros Ht Hover m [= <-].
      split; [exact Hover |].
      split; [rewrite polls_round; lia |].
      exists s. split; [reflexivity | split; [exact Ht |]].
      destruct (trace_noted execution_id last0 s
                  (requested execution_id
                     (get_status B (polls w0) execution_id) w0)) as [-> | ->];
        cbn; rewrite Hc, Hs; reflexivity.
    + split; [discriminate |].
      intros _ _ _.
      change (polls (slept _ _ ?x)) with (polls x).
      rewrite polls_round. lia.
Qed.

(** X11. The loop gives up only past the budget: when it returns the
    time-out message, more than the budget has elapsed since [t0], at
    least one status request was made, and the message names the status
    read last, which is not terminal. *)
Theorem loop_gives_up_past_budget (fuel : nat) (execution_id : json)
    (t0 : Z) (last : option str) (w w' : World) (message : str) :
  loop fuel execution_id t0 last w = (Some (Ok (Return message)), w') ->
  max_wait config < clock w' - t0
  /\ (polls w < polls w')%nat
  /\ exists s,
      message = wait_timeout_msg s
      /\ is_terminal s = false
      /\ hd_error (read_statuses lower_nonascii (trace w')) = Some s.
Proof.
  intros Hrun.
  pose proof (loop_give_up execution_id t0 fuel last w message) as H.
  rewrite Hrun in H. apply H. reflexivity.
Qed.

(** *** A text message, from the chat to the replies *)

Lemma loop_keeps_events (execution_id : json) (t0 : Z) (fuel : nat)
    (last : option str) (w : World) (ev : event) :
  In ev (trace w) ->
  In ev (trace (snd (loop fuel execution_id t0 last w))).
Proof.
  intros Hw.
  apply (loop_cases lower_nonascii B config
           (fun _ w0 => In ev (trace w0)) (fun _ w0 => In ev (trace w0))
           execution_id t0); [| | | | exact Hw].
  - auto.
  - intros _ w0 e H0 _. right. exact H0.
  - intros _ w0 p e H0 _ _. right. exact H0.
  - intros last0 w0 p s H0 _ _. cbn zeta.
    assert (H2 : In ev (trace (noted execution_id last0 s
                                 (requested execution_id
                                    (get_status B (polls w0) execution_id)
                                    w0)))).
    { destruct (trace_noted execution_id last0 s
                  (requested execution_id
                     (get_status B (polls w0) execution_id) w0)) as [-> | ->];
        cbn; auto. }
    repeat split; auto. intros _ _ _. right. exact H2.
Qed.

Lemma handle_posts_the_request (fuel : nat) (prompt : str) (user_id : Z)
    (w : World) :
  In (EvPost (job_request prompt user_id)
        (post B (job_request prompt user_id)))
     (trace (snd (handle fuel prompt user_id w))).
Proof.
  apply (handle_final
           (fun w' => In (EvPost (job_request prompt user_id)
                            (post B (job_request prompt user_id)))
                         (trace w'))).
  - left. reflexivity.
  - intros e w' Hw'. right. exact Hw'.
  - intros resp id _ _ _ _. cbn zeta.
    split; intros _; [| right]; apply loop_keeps_events;
      right; left; reflexivity.
Qed.

Lemma cut_reply_length (reply : str) :
  (length (cut_reply reply) <= 4002)%nat
  /\ ((length reply <= 4000)%nat -> cut_reply reply = reply).
Proof.
  unfold cut_reply. destruct (4000 <? length reply)%nat eqn:E.
  - apply Nat.ltb_lt in E. split; [| lia].
    rewrite length_app, firstn_length_le by lia. cbn. lia.
  - apply Nat.ltb_ge in E. split; [lia | reflexivity].
Qed.

(** X12. For a limit that is not negative, a text message is handled as
    the call for its text stripped and cut to the limit: that text, not
    longer than the limit, is the goal of the job submitted. When the
    call returns a text, the replies are the trim warning, first and
    only if the stripped text was longer than the limit, and then the
    text of the call, cut after 4000 characters: a reply of at most 4002
    characters, the text itself when it has at most 4000. *)
Theorem handle_text_replies (limit : Z) (fuel : nat)
    (message_text : option str) (user_id : Z) (w : World) :
  0 <= limit ->
  let stripped :=
    strip (match message_text with Some t => t | None => [] end) in
  let prompt := firstn (Z.to_nat limit) stripped in
  let run := handle_text lower_nonascii B config limit fuel message_text
               user_id w in
  snd run = snd (handle fuel prompt user_id w)
  /\ Z.of_nat (length prompt) <= limit
  /\ In (EvPost (job_request prompt user_id)
           (post B (job_request prompt user_id))) (trace (snd run))
  /\ goal_of (job_request prompt user_id) = JStr prompt
  /\ (forall m,
        fst (handle fuel prompt user_id w) = Some (Ok m) ->
        fst run
        = Some (Ok ((if limit <? Z.of_nat (length stripped)
                     then [trim_warn limit] else [])
                    ++ [cut_reply m]))
        /\ (length (cut_reply m) <= 4002)%nat
        /\ ((length m <= 4000)%nat -> cut_reply m = m)).
Proof.
  intros Hlimit stripped prompt run.
  assert (Hraw : strip (match message_text with
                        | Some t => if nonempty t then t else []
                        | None => []
                        end) = stripped)
    by (unfold stripped; destruct message_text as [[| c t] |]; reflexivity).
  destruct (soft_trim_nonneg limit stripped Hlimit) as [Htrim Hlen].
  fold prompt in Htrim, Hlen.
  assert (Hrun : run =
            match handle fuel prompt user_id w with
            | (Some (Ok m), w') =>
                (Some (Ok ((if limit <? Z.of_nat (length stripped)
                            then [trim_warn limit] else [])
                           ++ [cut_reply m])), w')
            | (Some (Raise e), w') => (Some (Raise e), w')
            | (None, w') => (None, w')
            end).
  { unfold run, handle_text. rewrite Hraw, Htrim.
    destruct (limit <? Z.of_nat (length stripped)); unfold bind;
      destruct (handle fuel prompt user_id w) as [[[m | e] |] w'];
      reflexivity. }
  split.
  { rewrite Hrun.
    destruct (handle fuel prompt user_id w) as [[[m | e] |] w'];
      reflexivity. }
  split; [exact Hlen |].
  split.
  { pose proof (handle_posts_the_request fuel prompt user_id w) as Hpost.
    rewrite Hrun.
    destruct (handle fuel prompt user_id w) as [[[m | e] |] w'];
      exact Hpost. }
  split; [reflexivity |].
  intros m Hm. rewrite Hrun.
  destruct (handle fuel prompt user_id w) as [[[m' | e] |] w'];
    try discriminate Hm.
  injection Hm as ->.
  split; [reflexivity | apply cut_reply_length].
Qed.

End Runs.

(** ** The commands *)

Lemma endswith_split (s suffix : str) :
  endswith s suffix = true ->
  firstn (length s - length suffix) s ++ suffix = s.
Proof.
  unfold endswith. intros H. apply eqb_eq in H.
  rewrite <- H at 2. apply firstn_skipn.
Qed.

(** X13. [seturl] without arguments changes nothing and replies with the
    usage. With arguments, whatever the settings were, the address
    becomes the arguments joined by spaces and stripped; when it ends
    with [/executions] the base is the address without that ending, so
    that status and result requests go to the address followed by the
    identifier; otherwise the base is the address itself, and status
    requests go to the address followed by [/executions/], the
    identifier and [/status]. *)
Theorem seturl_spec (args : list str) (e : Commands.Endpoints) :
  (args = [] -> Commands.seturl args e = (e, Commands.seturl_usage))
  /\ (args <> [] ->
      let e' := fst (Commands.seturl args e) in
      let url := strip (join (lit " ") args) in
      Commands.api_url e' = url
      /\ snd (Commands.seturl args e)
         = Commands.seturl_ok url (Commands.api_base e')
      /\ (endswith url (lit "/executions") = true ->
          Commands.api_base e' ++ lit "/executions" = url
          /\ forall id,
              status_url_of (Commands.api_base e') id
              = url ++ lit "/" ++ id ++ lit "/status"
              /\ result_url_of (Commands.api_base e') id
                 = url ++ lit "/" ++ id)
      /\ (endswith url (lit "/executions") = false ->
          Commands.api_base e' = url
          /\ forall id,
              status_url_of (Commands.api_base e') id
              = url ++ lit "/executions/" ++ id ++ lit "/status")).
Proof.
  split; [intros ->; reflexivity |].
  intros Hargs. destruct args as [| a args]; [congruence |].
  cbn zeta. unfold Commands.seturl.
  set (url := strip (join (lit " ") (a :: args))).
  cbn [fst snd Commands.api_url Commands.api_base].
  split; [reflexivity |]. split; [reflexivity |].
  destruct (endswith url (lit "/executions")) eqn:E.
  - split; [| discriminate]. intros _.
    assert (Hbase : slice_to url (- Z.of_nat (length (lit "/executions")))
                    ++ lit "/executions" = url)
      by (apply (endswith_split url (lit "/executions") E)).
    split; [exact Hbase |].
    intros id. unfold status_url_of, result_url_of.
    rewrite <- Hbase at 2 4.
    change (lit "/executions/") with (lit "/executions" ++ lit "/").
    rewrite <- !app_assoc. split; reflexivity.
  - split; [discriminate |]. intros _. split; reflexivity.
Qed.

Lemma seturl_example :
  let e' :=
    fst (Commands.seturl [lit "http://h:1/api/v1/executions"]
           {| Commands.api_url := []; Commands.api_base := [] |}) in
  Commands.api_base e' ++ lit "/executions" = lit "http://h:1/api/v1/executions"
  /\ status_url_of (Commands.api_base e') (lit "abc")
     = lit "http://h:1/api/v1/executions/abc/status".
Proof.
  destruct (proj2 (seturl_spec [lit "http://h:1/api/v1/executions"]
                     {| Commands.api_url := []; Commands.api_base := [] |}))
    as (_ & _ & Hends & _); [discriminate |].
  destruct (Hends eq_refl) as [Hbase Hurls].
  split; [exact Hbase |].
  apply (proj1 (Hurls (lit "abc"))).
Defined.

(** X14. [ping] replies with the OK text and the code for every answer,
    whatever its code; with the time-out text for a [Timeout] and with
    the failure text and the detail for another [RequestException].
    Any other exception is not caught: [ping] raises it. *)
Theorem ping_replies (health : call) (e : Commands.Endpoints) (w : World) :
  let url := health_url_of (Commands.api_base e) in
  (forall r,
      reply_of health = Answers r ->
      fst (Commands.ping health e w)
      = Some (Ok (Commands.ping_ok url (status_code r))))
  /\ (forall detail,
        reply_of health = Fails (Timeout detail) ->
        fst (Commands.ping health e w) = Some (Ok UX.timeout))
  /\ (forall detail,
        reply_of health = Fails (RequestException detail) ->
        fst (Commands.ping health e w)
        = Some (Ok (Commands.ping_err url detail)))
  /\ (forall detail,
        reply_of health = Fails (OtherException detail) ->
        fst (Commands.ping health e w)
        = Some (Raise (OtherException detail)))
  /\ clock (snd (Commands.ping health e w)) = clock w + took health.
Proof.
  cbn zeta. unfold Commands.ping, catch, perform, bind, advance, ret, raise.
  repeat split; try (intros x H; rewrite H; reflexivity).
  destruct (reply_of health) as [r | [d | d | d]]; reflexivity.
Qed.

Lemma ping_on_503 :
  fst (Commands.ping
         (Examples.plain_answer 20 503 (lit "Service Unavailable")
            (lit "http://h/health") (lit "down"))
         {| Commands.api_url := lit "http://h/executions";
            Commands.api_base := lit "http://h" |} (start 0))
  = Some (Ok (Commands.ping_ok (lit "http://h/health") 503)).
Proof.
  exact (proj1 (ping_replies
                  (Examples.plain_answer 20 503 (lit "Service Unavailable")
                     (lit "http://h/health") (lit "down"))
                  {| Commands.api_url := lit "http://h/executions";
                     Commands.api_base := lit "http://h" |} (start 0))
           _ eq_refl).
Defined.




(** ** Examples of the further properties *)

Lemma polls_of_the_scenario_bounded :
  Z.of_nat (polls (snd (handle_default_route keep_nonascii backend_42 RUNTIME
                          5 (lit "hi") 7 (start 0))))
  <= 122.
Proof.
  apply (polls_are_bounded keep_nonascii backend_42 RUNTIME).
  - reflexivity.
  - cbn. lia.
  - intros n d. cbn. lia.
  - intros [| n] id; cbn; lia.
Defined.

Lemma result_request_of_the_scenario_uses_abc :
  exists resp,
    reply_of (post backend_42 (job_request (lit "hi") 7)) = Answers resp
    /\ is_2xx (status_code resp) = true
    /\ py_get (match parsed resp with Json j => j | _ => JObj [] end)
         (lit "execution_id") = Ok abc
    /\ truthy abc = true.
Proof.
  apply (requests_use_the_submitted_id keep_nonascii backend_42 RUNTIME 5
           (lit "hi") 7 0 (EvResult abc result_42) abc).
  - vm_compute. left. reflexivity.
  - reflexivity.
Defined.

Lemma requests_of_the_scenario_counted :
  let w' :=
    snd (handle_default_route keep_nonascii backend_42 RUNTIME 5 (lit "hi") 7
           (start 0)) in
  count is_post w' = 1%nat
  /\ (fetches w' <= 1)%nat
  /\ (sleeps w' <= polls w' <= S (sleeps w'))%nat.
Proof.
  destruct (one_submission_one_fetch keep_nonascii backend_42 RUNTIME 5
              (lit "hi") 7 0) as (Hp & Hf & Hs & _).
  repeat split; try assumption; apply Hs.
Defined.


Lemma list_body_is_unexpected :
  exists w',
    handle_default_route keep_nonascii MoreExamples.backend_list_body RUNTIME
      5 (lit "hi") 7 (start 0)
    = (Some (Ok (UX.cross_mark
                 ++ lit " Unexpected error: 'list' object has no attribute 'get'")),
       w')
    /\ polls w' = 0%nat /\ fetches w' = 0%nat.
Proof.
  apply (non_mapping_submission_body keep_nonascii
           MoreExamples.backend_list_body RUNTIME 5 (lit "hi") 7 0 _
           (JArr [JInt 1]) eq_refl eq_refl eq_refl).
  discriminate.
Defined.

Lemma status_5_is_unexpected :
  fst (handle_default_route keep_nonascii MoreExamples.backend_status_5
         RUNTIME 5 (lit "hi") 7 (start 0))
  = Some (Ok (UX.cross_mark
              ++ lit " Unexpected error: 'int' object has no attribute 'lower'")).
Proof.
  apply (proj1 (unreadable_status_is_unexpected keep_nonascii
                  MoreExamples.backend_status_5 RUNTIME 5 (lit "hi") 7 0
                  abc MoreExamples.status_5
                  (JObj [(lit "status", JInt 5)])
                  (attribute_error (JInt 5) (lit "lower"))
                  ltac:(vm_compute; right; left; reflexivity)
                  eq_refl eq_refl)).
Defined.

Lemma giving_up_after_three_rounds :
  let w' :=
    snd (poll_loop keep_nonascii backend_stalls quick 5 abc 0 None (start 0)) in
  max_wait quick < clock w' - 0
  /\ (polls (start 0) < polls w')%nat
  /\ exists s,
      wait_timeout_msg (lit "running") = wait_timeout_msg s
      /\ is_terminal s = false
      /\ hd_error (read_statuses keep_nonascii (trace w')) = Some s.
Proof.
  intros w'.
  apply (loop_gives_up_past_budget keep_nonascii backend_stalls quick 5 abc 0
           None (start 0) w' (wait_timeout_msg (lit "running"))).
  vm_compute. reflexivity.
Defined.

Lemma long_message_is_cut_and_warned :
  let run :=
    handle_text keep_nonascii backend_42 RUNTIME 3 5 (Some (lit " hello "))
      7 (start 0) in
  In (EvPost (job_request (lit "hel") 7)
        (post backend_42 (job_request (lit "hel") 7))) (trace (snd run))
  /\ fst run = Some (Ok [trim_warn 3; lit "42"]).
Proof.
  destruct (handle_text_replies keep_nonascii backend_42 RUNTIME 3 5
              (Some (lit " hello ")) 7 (start 0))
    as (_ & _ & Hposted & _ & Hreplies); [lia |].
  split; [exact Hposted |].
  apply (Hreplies (lit "42")). vm_compute. reflexivity.
Defined.


(** ** The headers *)


